(** * streamlit_app.py: the voice-prediction front end, embedded and verified

    The application loads three pickled artifacts and TSFEL's feature
    dictionary, turns an uploaded or recorded clip into a mono signal at
    16 kHz, extracts TSFEL features, aligns them with the trained column
    list, imputes, classifies and maps the classifier's codes to two labels.

    The embedding follows the Python text statement by statement.
    Exceptions, [st.stop()], the temporary files and everything shown in the
    browser are explicit: a computation takes a [world] (the files on disk
    and the trace of observable calls) to an [outcome] and a new world.
    The libraries the script calls (joblib, TSFEL, librosa's decoder, the
    fitted estimators, the ffmpeg executable) are parameters, gathered in
    [externals]; pandas' [reindex] and [replace], [subprocess.run] and
    [librosa.load]'s mono/resample wrapper are written out. *)

From Stdlib Require Import ZArith String List Floats.SpecFloat.
From stdpp Require Import base option list strings pretty gmap.

Local Open Scope Z_scope.
Local Open Scope string_scope.

(** ** Python values *)

Abbreviation bytes := (list Byte.byte).

(** A float64 cell: IEEE zero, infinity, NaN or a finite number. *)
Abbreviation float := spec_float.

(** [np.inf], [-np.inf] and [np.nan]. *)
Definition np_inf : float := S754_infinity false.
Definition np_neg_inf : float := S754_infinity true.
Definition np_nan : float := S754_nan.

(** Exceptions derived from [Exception].  The script's handlers tell
    [FileNotFoundError] and [subprocess.CalledProcessError] apart from the
    rest; the other constructors are the ones the script itself can cause. *)
Inductive exception : Type :=
| FileNotFoundError (msg : string)
| CalledProcessError (msg : string) (stderr : bytes)
| IndexError (msg : string)
| AttributeError (msg : string)
| UnicodeDecodeError (msg : string)
| OtherException (cls msg : string).

(** [str(e)], as the f-strings format it. *)
Definition str_exception (e : exception) : string :=
  match e with
  | FileNotFoundError msg | CalledProcessError msg _ | IndexError msg
  | AttributeError msg | UnicodeDecodeError msg | OtherException _ msg => msg
  end.

(** The result of a library call: an exception or a value. *)
Abbreviation result := (sum exception).

#[global] Instance result_ret : MRet result := λ A a, inr a.
#[global] Instance result_bind : MBind result := λ A B k r,
  match r with inl e => inl e | inr a => k a end.

(** A numpy array of samples: one-dimensional (mono) or channels × samples. *)
Inductive ndarray : Type :=
| Array1 (samples : list float)
| Array2 (channels : list (list float)).

Definition ndim (y : ndarray) : nat :=
  match y with Array1 _ => 1%nat | Array2 _ => 2%nat end.

Definition channel_count (y : ndarray) : nat :=
  match y with Array1 _ => 1%nat | Array2 chs => length chs end.

(** The table TSFEL returns: one row per window, each row a mapping from
    feature name to value (TSFEL emits every column label once). *)
Abbreviation feature_table := (list (gmap string float)).

(** A pandas frame with an ordered column index. *)
Record DataFrame : Type := mkDataFrame {
  columns : list string;
  values : list (list float)
}.

(** What [json.load] returns. *)
#[local] Set Warnings "-register-all".
Inductive json : Type :=
| JNull
| JBool (b : bool)
| JNum (z : Z)
| JStr (s : string)
| JArr (items : list json)
| JObj (fields : list (string * json)).
#[local] Set Warnings "register-all".

(** A fitted scikit-learn object is known by the methods it answers to. *)
Record estimator : Type := mkEstimator {
  est_transform : option (DataFrame → result (list (list float)));
  est_predict : option (list (list float) → result (list (list Z)))
}.

(** What [joblib.load] can hand back. *)
Inductive pyobj : Type :=
| PyNone
| PyInt (z : Z)
| PyStr (s : string)
| PyList (items : list string)
| PyTuple (items : list string)
| PyEstimator (e : estimator).

Definition getattr_transform (o : pyobj)
  : option (DataFrame → result (list (list float))) :=
  match o with PyEstimator e => est_transform e | _ => None end.

Definition getattr_predict (o : pyobj)
  : option (list (list float) → result (list (list Z))) :=
  match o with PyEstimator e => est_predict e | _ => None end.

Definition isinstance_list (o : pyobj) : bool :=
  match o with PyList _ => true | _ => false end.

(** The four module globals bound at line 49.  [load_assets] has two return
    statements: the tuple of four [None]s and the tuple of the four loaded
    objects, the third of which has passed the [isinstance(_, list)] test. *)
Inductive globals : Type :=
| AllNone
| Loaded (model imputer : pyobj) (selected_features_names : list string)
         (tsfel_cfg : json).

(** ** The world and the trace of observable calls *)

Inductive event : Type :=
| st_error (msg : string)
| st_success (msg : string)
| st_metric (label value : string)
| st_audio (data : bytes)
| call_extractor (cfg : json) (signal : ndarray) (fs : Z)
| call_transform (X : DataFrame)
| call_predict (X : list (list float))
| call_subprocess (command : list string).

Record world : Type := mkWorld {
  files : gmap string bytes;
  trace : list event
}.

(** ** Computations: state, exceptions and [st.stop()] *)

Inductive outcome (A : Type) : Type :=
| Return (a : A)
| Raise (e : exception)
| Stop.
Arguments Return {A} a.
Arguments Raise {A} e.
Arguments Stop {A}.

Definition M (A : Type) : Type := world → outcome A * world.

#[global] Instance M_ret : MRet M := λ A a w, (Return a, w).
#[global] Instance M_bind : MBind M := λ A B k m w,
  match m w with
  | (Return a, w') => k a w'
  | (Raise e, w') => (Raise e, w')
  | (Stop, w') => (Stop, w')
  end.

Definition raise {A} (e : exception) : M A := λ w, (Raise e, w).

(** [st.stop()] raises streamlit's StopException, which derives from
    BaseException: no [except Exception] clause catches it. *)
Definition st_stop {A} : M A := λ w, (Stop, w).

Definition lift {A} (r : result A) : M A :=
  match r with inl e => raise e | inr a => mret a end.

Definition emit (ev : event) : M unit :=
  λ w, (Return tt, mkWorld (files w) (trace w ++ [ev])%list).

Definition get_files : M (gmap string bytes) := λ w, (Return (files w), w).

Definition set_files (fs : gmap string bytes) : M unit :=
  λ w, (Return tt, mkWorld fs (trace w)).

(** [try: body except Exception as e: handler e]. *)
Definition try_except {A} (body : M A) (handler : exception → M A) : M A :=
  λ w, match body w with
       | (Raise e, w') => handler e w'
       | r => r
       end.

(** [try: body finally: fin]; an exception raised by [fin] replaces the
    pending outcome. *)
Definition try_finally {A} (body : M A) (fin : M unit) : M A :=
  λ w, let '(r, w') := body w in
       match fin w' with
       | (Return _, w'') => (r, w'')
       | (Raise e, w'') => (Raise e, w'')
       | (Stop, w'') => (Stop, w'')
       end.

(** ** pandas and numpy operations the script uses *)

(** numpy's IndexError for position [i] of an axis that holds [n] entries. *)
Definition out_of_bounds (i n : nat) : exception :=
  IndexError ("index " +:+ pretty i +:+ " is out of bounds for axis 0 with size "
              +:+ pretty n).

(** [a[i]] on an array, for a non-negative literal index. *)
Definition getitem {A} (a : list A) (i : nat) : result A :=
  match a !! i with
  | Some x => inr x
  | None => inl (out_of_bounds i (length a))
  end.

(** [features.reindex(columns=labels)]: the new column index is [labels];
    a label the table lacks gets a NaN cell. *)
Definition reindex_row (labels : list string) (row : gmap string float)
  : list float :=
  (λ c, default np_nan (row !! c)) <$> labels.

Definition reindex (features : feature_table) (labels : list string)
  : DataFrame :=
  mkDataFrame labels (reindex_row labels <$> features).

(** [df.replace(to_replace, value)]: a cell that compares equal ([==]) to one
    of [to_replace] becomes [value]. *)
Definition replace_cell (to_replace : list float) (value c : float) : float :=
  if existsb (SFeqb c) to_replace then value else c.

Definition replace (df : DataFrame) (to_replace : list float) (value : float)
  : DataFrame :=
  mkDataFrame (columns df) (map (map (replace_cell to_replace value)) (values df)).

(** ** The libraries, as parameters *)

Record externals : Type := mkExternals {
  (** joblib's unpickler, applied to the content of a file *)
  pickle_load : bytes → result pyobj;
  (** [json.load] *)
  json_load : bytes → result json;
  (** where TSFEL keeps its features.json *)
  tsfel_features_json : string;
  (** [tsfel.time_series_features_extractor(cfg, signal, fs=sr, verbose=0)] *)
  time_series_features_extractor : json → ndarray → Z → result feature_table;
  (** the audio decoder behind [librosa.load]: samples and native rate *)
  audio_decode : bytes → result (ndarray * Z);
  (** [np.mean(y, axis=0)] of librosa's [to_mono] *)
  channel_mean : list (list float) → list float;
  (** [librosa.resample] of one channel, from a rate to a rate *)
  resample_channel : list float → Z → Z → list float;
  (** [bytes.decode()] *)
  bytes_decode : bytes → result string;
  (** pydub's [AudioSegment.export(_, format="wav")] of a recording *)
  export_wav : bytes → result bytes;
  (** [os.path.splitext(name)[-1]] *)
  splitext_ext : string → string;
  (** the name [tempfile] picks, given the files present and the suffix *)
  mkstemp_name : gmap string bytes → string → string;
  (** the ffmpeg executable found on PATH, if any: argv and the files give
      the exit status, what was written to stderr, and the files afterwards *)
  ffmpeg : option (list string → gmap string bytes → Z * bytes * gmap string bytes)
}.

(** ** The script *)

Definition TARGET_SR : Z := 16000.

Section App.

Context (lib : externals).

(** [obj.transform(X)] and [obj.predict(X)] on whatever object the global
    holds: an object without the method raises AttributeError. *)
Definition call_method_transform (imputer : pyobj) (X : DataFrame)
  : M (list (list float)) :=
  match getattr_transform imputer with
  | Some f => emit (call_transform X);; lift (f X)
  | None => raise (AttributeError "object has no attribute 'transform'")
  end.

Definition call_method_predict (model : pyobj) (X : list (list float))
  : M (list (list Z)) :=
  match getattr_predict model with
  | Some f => emit (call_predict X);; lift (f X)
  | None => raise (AttributeError "object has no attribute 'predict'")
  end.

Definition call_time_series_features_extractor (cfg : json) (signal : ndarray)
    (sr : Z) : M feature_table :=
  emit (call_extractor cfg signal sr);;
  lift (time_series_features_extractor lib cfg signal sr).

(** Lines 72-73: the two conditional expressions, in evaluation order. *)
Definition interpret (pred_array : list Z) : result (string * string) :=
  x0 ← getitem pred_array 0;
  let kata := if (x0 =? 1)%Z then "Buka" else "Tutup" in
  x2 ← getitem pred_array 2;
  let pembicara := if (x2 =? 1)%Z then "Fikri" else "Fauzan" in
  mret (kata, pembicara).

(** Lines 58-75, the body of the [try]. *)
Definition pipeline_body (g : globals) (signal : ndarray) (sr : Z)
  : M (option string * option string) :=
  match g with
  | AllNone =>
      (* tsfel_cfg is None; reindex(columns=None) and replace keep the frame;
         imputer is None and has no transform *)
      _ ← call_time_series_features_extractor JNull signal sr;
      raise (AttributeError "object has no attribute 'transform'")
  | Loaded model imputer selected_features_names tsfel_cfg =>
      features ← call_time_series_features_extractor tsfel_cfg signal sr;
      let features_reindexed := reindex features selected_features_names in
      let features_no_inf :=
        replace features_reindexed [np_inf; np_neg_inf] np_nan in
      features_imputed ← call_method_transform imputer features_no_inf;
      prediction ← call_method_predict model features_imputed;
      pred_array ← lift (getitem prediction 0);
      '(kata, pembicara) ← lift (interpret pred_array);
      mret (Some kata, Some pembicara)
  end.

(** Lines 52-79. *)
Definition run_prediction_pipeline (g : globals) (signal : ndarray) (sr : Z)
  : M (option string * option string) :=
  try_except (pipeline_body g signal sr)
    (λ e, emit (st_error ("Terjadi error saat menjalankan pipeline prediksi: "
                          +:+ str_exception e));;
          mret (None, None)).

(** *** Section 2 of the script: [load_assets] *)

Definition open_read (path : string) : M bytes :=
  fs ← get_files;
  match fs !! path with
  | Some content => mret content
  | None => raise (FileNotFoundError
                     ("[Errno 2] No such file or directory: '" +:+ path +:+ "'"))
  end.

Definition joblib_load (path : string) : M pyobj :=
  content ← open_read path;
  lift (pickle_load lib content).

(** [tsfel.get_features_by_domain()]: with no domain given, the dictionary
    read from TSFEL's own features.json. *)
Definition get_features_by_domain : M json :=
  content ← open_read (tsfel_features_json lib);
  lift (json_load lib content).

(** Lines 41-46, the two [except] clauses in order. *)
Definition load_assets_handlers (e : exception) : M globals :=
  match e with
  | FileNotFoundError _ =>
      emit (st_error "ERROR: File model tidak ditemukan. Pastikan file .joblib ada di folder yang sama.");;
      st_stop
  | _ =>
      emit (st_error ("Error saat memuat model: " +:+ str_exception e));;
      st_stop
  end.

(** Lines 27-46.  (The [print] at line 29 goes to the console and is left
    out.) *)
Definition load_assets : M globals :=
  try_except
    (model ← joblib_load "model_suara.joblib";
     imputer ← joblib_load "imputer.joblib";
     selected_features_names ← joblib_load "selected_features.joblib";
     tsfel_cfg ← get_features_by_domain;
     match selected_features_names with
     | PyList names => mret (Loaded model imputer names tsfel_cfg)
     | _ =>
         emit (st_error "Error: 'selected_features.joblib' bukan sebuah list. Pastikan file sudah benar.");;
         mret AllNone
     end)
    load_assets_handlers.

(** *** librosa.load *)

Definition to_mono (y : ndarray) : ndarray :=
  match y with
  | Array1 s => Array1 s
  | Array2 chs => Array1 (channel_mean lib chs)
  end.

Definition resample (y : ndarray) (orig_sr target_sr : Z) : ndarray :=
  match y with
  | Array1 s => Array1 (resample_channel lib s orig_sr target_sr)
  | Array2 chs =>
      Array2 (map (λ c, resample_channel lib c orig_sr target_sr) chs)
  end.

(** [librosa.load(src, sr=sr, mono=mono)] on the bytes of [src]: decode,
    mix down when [mono], resample when a rate is asked for. *)
Definition librosa_load (content : bytes) (sr : option Z) (mono : bool)
  : result (ndarray * Z) :=
  '(y, sr_native) ← audio_decode lib content;
  let y := if mono then to_mono y else y in
  match sr with
  | Some target => mret (resample y sr_native target, target)
  | None => mret (y, sr_native)
  end.

Definition librosa_load_path (path : string) (sr : option Z) (mono : bool)
  : M (ndarray * Z) :=
  content ← open_read path;
  lift (librosa_load content sr mono).

(** *** Section 4 of the script: [process_uploaded_file] *)

(** [with tempfile.NamedTemporaryFile(delete=False, suffix=suffix) as t:
    t.write(data); path = t.name].  Creating and writing the file is taken
    to succeed; a full disk or a missing temporary directory is not
    modelled. *)
Definition NamedTemporaryFile_write (suffix : string) (data : bytes)
  : M string :=
  fs ← get_files;
  let path := mkstemp_name lib fs suffix in
  set_files (<[path := data]> fs);;
  mret path.

(** [subprocess.run(command, check=True, stdout=PIPE, stderr=PIPE)] for a
    command whose program is ffmpeg. *)
Definition subprocess_run_check (command : list string) : M unit :=
  emit (call_subprocess command);;
  match ffmpeg lib with
  | None =>
      raise (FileNotFoundError "[Errno 2] No such file or directory: 'ffmpeg'")
  | Some exe =>
      fs ← get_files;
      let '(returncode, stderr, fs') := exe command fs in
      set_files fs';;
      if (returncode =? 0)%Z then mret tt
      else raise (CalledProcessError
                    ("Command returned non-zero exit status "
                     +:+ pretty returncode +:+ ".") stderr)
  end.

(** [if os.path.exists(path): os.remove(path)].  Removing a file that
    exists is taken to succeed. *)
Definition remove_if_exists (path : string) : M unit :=
  fs ← get_files;
  if decide (is_Some (fs !! path)) then set_files (delete path fs)
  else mret tt.

Record UploadedFile : Type := mkUploadedFile {
  name : string;
  getvalue : bytes
}.

Definition ffmpeg_command (input_temp_path output_temp_path : string)
  : list string :=
  ["ffmpeg"; "-i"; input_temp_path; "-ac"; "1"; "-ar"; pretty TARGET_SR;
   output_temp_path; "-y"].

(** Lines 97-108, the body of the [try]. *)
Definition upload_try_body (g : globals)
    (input_temp_path output_temp_path : string)
  : M (option string * option string) :=
  subprocess_run_check (ffmpeg_command input_temp_path output_temp_path);;
  '(signal, sr) ← librosa_load_path output_temp_path (Some TARGET_SR) true;
  run_prediction_pipeline g signal sr.

(** Lines 110-118, the three [except] clauses in order. *)
Definition upload_handlers (e : exception)
  : M (option string * option string) :=
  match e with
  | CalledProcessError _ stderr =>
      text ← lift (bytes_decode lib stderr);
      emit (st_error ("Error saat konversi FFmpeg: " +:+ text));;
      mret (None, None)
  | FileNotFoundError _ =>
      emit (st_error "ERROR: FFmpeg tidak ditemukan. Pastikan FFmpeg sudah terinstal.");;
      mret (None, None)
  | _ =>
      emit (st_error ("Terjadi error saat memproses file upload: "
                      +:+ str_exception e));;
      mret (None, None)
  end.

(** Lines 82-124. *)
Definition process_uploaded_file (g : globals) (audio_file : UploadedFile)
  : M (option string * option string) :=
  let file_extension := splitext_ext lib (name audio_file) in
  input_temp_path ← NamedTemporaryFile_write file_extension (getvalue audio_file);
  let output_temp_path := input_temp_path +:+ ".wav" in
  try_finally
    (try_except (upload_try_body g input_temp_path output_temp_path)
                upload_handlers)
    (remove_if_exists input_temp_path;;
     remove_if_exists output_temp_path).

(** *** Section 5 of the script: the two tabs *)

(** Truth value of [None] or a string. *)
Definition truthy (o : option string) : bool :=
  match o with
  | Some s => negb (String.eqb s EmptyString)
  | None => false
  end.

(** [str.upper()] on the ASCII letters. *)
Definition upper_ascii (c : Ascii.ascii) : Ascii.ascii :=
  let n := Ascii.nat_of_ascii c in
  if (97 <=? n)%nat && (n <=? 122)%nat then Ascii.ascii_of_nat (n - 32) else c.

Fixpoint upper (s : string) : string :=
  match s with
  | EmptyString => EmptyString
  | String c s' => String (upper_ascii c) (upper s')
  end.

(** Lines 146-150 and 184-188. *)
Definition show_result (r : option string * option string) : M unit :=
  match r with
  | (Some kata, Some pembicara) =>
      if truthy (Some kata) && truthy (Some pembicara) then
        emit (st_success "Prediksi Berhasil!");;
        emit (st_metric "Kata yang Diucapkan" (upper kata));;
        emit (st_metric "Pembicara" (upper pembicara))
      else mret tt
  | _ => mret tt
  end.

(** What the browser sends with one run of the script. *)
Record ui_input : Type := mkUiInput {
  uploaded_file : option UploadedFile;
  upload_button : bool;
  pydub_audio : option bytes;
  record_button : bool
}.

(** Lines 135-150. *)
Definition tab1 (g : globals) (inp : ui_input) : M unit :=
  match uploaded_file inp with
  | Some f =>
      emit (st_audio (getvalue f));;
      if upload_button inp then
        r ← process_uploaded_file g f;
        show_result r
      else mret tt
  | None => mret tt
  end.

(** Lines 176-191, the handler of the record button. *)
Definition predict_recording (g : globals) (wav_audio_bytes : bytes) : M unit :=
  try_except
    ('(signal, sr) ← lift (librosa_load wav_audio_bytes (Some TARGET_SR) true);
     r ← run_prediction_pipeline g signal sr;
     show_result r)
    (λ e, emit (st_error ("Error saat memproses rekaman: " +:+ str_exception e))).

(** Lines 153-191. *)
Definition tab2 (g : globals) (inp : ui_input) : M unit :=
  match pydub_audio inp with
  | Some segment =>
      wav_audio_bytes ← lift (export_wav lib segment);
      emit (st_audio wav_audio_bytes);;
      if record_button inp then predict_recording g wav_audio_bytes
      else mret tt
  | None => mret tt
  end.

(** One run of the script, top to bottom (titles and captions left out). *)
Definition script (inp : ui_input) : M unit :=
  g ← load_assets;
  tab1 g inp;;
  tab2 g inp.

End App.

(** ** Vocabulary of the statements *)

Definition is_infinite (c : float) : bool :=
  match c with S754_infinity _ => true | _ => false end.

(** No cell of the frame is an infinity. *)
Definition no_infinite (X : DataFrame) : Prop :=
  Forall (Forall (λ c, is_infinite c = false)) (values X).

(** The frame line 64 builds from the extracted table. *)
Definition features_no_inf_of (features : feature_table) (names : list string)
  : DataFrame :=
  replace (reindex features names) [np_inf; np_neg_inf] np_nan.

(** [w'] is [w] with the events [new] appended to its trace. *)
Definition after (w : world) (new : list event) : world :=
  mkWorld (files w) (trace w ++ new)%list.

(** A computation only appends events that satisfy [P], and a value it
    returns satisfies [Q]. *)
Definition spec {A} (P : event → Prop) (Q : A → Prop) (m : M A) : Prop :=
  ∀ w r w', m w = (r, w') →
    (∃ new : list event, trace w' = (trace w ++ new)%list ∧ Forall P new) ∧
    (∀ a, r = Return a → Q a).

(** The files [load_assets] reads: the three pickles beside the script and
    TSFEL's feature dictionary. *)
Definition artifact_files (lib : externals) : list string :=
  ["model_suara.joblib"; "imputer.joblib"; "selected_features.joblib";
   tsfel_features_json lib].

(** The event predicate of the AudioSignal invariant: a feature extraction
    is only ever asked for on a one-channel signal at the target rate. *)
Definition extracts_normalized (ev : event) : Prop :=
  ∀ cfg signal sr, ev = call_extractor cfg signal sr →
    sr = 16000 ∧ ndim signal = 1%nat ∧ channel_count signal = 1%nat.

(** The message the pipeline's handler shows for [e] (line 78). *)
Definition pipeline_error_message (e : exception) : string :=
  "Terjadi error saat menjalankan pipeline prediksi: " +:+ str_exception e.

(** [aborted_at lib signal sr e g calls]: in a run of the pipeline on
    [signal] and [sr] under the globals [g], some step raises [e], and
    [calls] are the library calls made up to and including that step.
    Projection and infinity replacement are total and make no call. *)
Inductive aborted_at (lib : externals) (signal : ndarray) (sr : Z)
    (e : exception) : globals → list event → Prop :=
| abort_extraction model imputer names cfg :
    time_series_features_extractor lib cfg signal sr = inl e →
    aborted_at lib signal sr e (Loaded model imputer names cfg)
      [call_extractor cfg signal sr]
| abort_no_transform model imputer names cfg features :
    time_series_features_extractor lib cfg signal sr = inr features →
    getattr_transform imputer = None →
    e = AttributeError "object has no attribute 'transform'" →
    aborted_at lib signal sr e (Loaded model imputer names cfg)
      [call_extractor cfg signal sr]
| abort_imputation model imputer names cfg features f :
    time_series_features_extractor lib cfg signal sr = inr features →
    getattr_transform imputer = Some f →
    f (features_no_inf_of features names) = inl e →
    aborted_at lib signal sr e (Loaded model imputer names cfg)
      [call_extractor cfg signal sr;
       call_transform (features_no_inf_of features names)]
| abort_no_predict model imputer names cfg features f features_imputed :
    time_series_features_extractor lib cfg signal sr = inr features →
    getattr_transform imputer = Some f →
    f (features_no_inf_of features names) = inr features_imputed →
    getattr_predict model = None →
    e = AttributeError "object has no attribute 'predict'" →
    aborted_at lib signal sr e (Loaded model imputer names cfg)
      [call_extractor cfg signal sr;
       call_transform (features_no_inf_of features names)]
| abort_classification model imputer names cfg features f features_imputed p :
    time_series_features_extractor lib cfg signal sr = inr features →
    getattr_transform imputer = Some f →
    f (features_no_inf_of features names) = inr features_imputed →
    getattr_predict model = Some p →
    p features_imputed = inl e →
    aborted_at lib signal sr e (Loaded model imputer names cfg)
      [call_extractor cfg signal sr;
       call_transform (features_no_inf_of features names);
       call_predict features_imputed]
| abort_interpretation model imputer names cfg features f features_imputed p
    prediction :
    time_series_features_extractor lib cfg signal sr = inr features →
    getattr_transform imputer = Some f →
    f (features_no_inf_of features names) = inr features_imputed →
    getattr_predict model = Some p →
    p features_imputed = inr prediction →
    (pred_array ← getitem prediction 0; interpret pred_array) = inl e →
    aborted_at lib signal sr e (Loaded model imputer names cfg)
      [call_extractor cfg signal sr;
       call_transform (features_no_inf_of features names);
       call_predict features_imputed]
| abort_unloaded_extraction :
    time_series_features_extractor lib JNull signal sr = inl e →
    aborted_at lib signal sr e AllNone [call_extractor JNull signal sr]
| abort_unloaded_transform features :
    time_series_features_extractor lib JNull signal sr = inr features →
    e = AttributeError "object has no attribute 'transform'" →
    aborted_at lib signal sr e AllNone [call_extractor JNull signal sr].

(** ** A small installation to run the script on *)

Module Demo.

Import Byte.

(** An imputer that fills NaN with zero, and a classifier that answers
    (1, 0, 0) for every row. *)
Definition imputer_obj : pyobj :=
  PyEstimator (mkEstimator
    (Some (λ X, inr (map (map (λ c, match c with
                                    | S754_nan => S754_zero false
                                    | _ => c
                                    end)) (values X))))
    None).

Definition model_obj : pyobj :=
  PyEstimator (mkEstimator None (Some (λ X, inr (map (λ _, [1; 0; 0]) X)))).

(** An imputer whose [transform] rejects its input. *)
Definition failing_imputer_obj : pyobj :=
  PyEstimator (mkEstimator
    (Some (λ _, inl (OtherException "ValueError" "X has 3 features")))
    None).

Definition names : list string := ["0_Mean"; "0_Max"; "0_Skewness"].

Definition unpickle (b : bytes) : result pyobj :=
  match b with
  | [x01] => inr model_obj
  | [x02] => inr imputer_obj
  | [x03] => inr (PyList names)
  | [x04] => inr (PyInt 42)
  | _ => inl (OtherException "UnpicklingError" "invalid load key")
  end.

Definition cfg : json := JObj [("statistical", JObj [])].

Definition extracted : feature_table :=
  [ {[ "0_Mean" := S754_zero false; "0_Max" := np_neg_inf;
       "0_Kurtosis" := np_inf ]} ].

Definition stereo : ndarray :=
  Array2 [[S754_zero false; S754_zero false];
          [S754_zero false; S754_zero false]].

Definition decode (b : bytes) : result (ndarray * Z) :=
  match b with
  | [] => inl (OtherException "NoBackendError" "no backend")
  | _ => inr (stereo, 44100)
  end.

(** An ffmpeg that writes its eighth argument, the output path. *)
Definition ffmpeg_ok (argv : list string) (fs : gmap string bytes)
  : Z * bytes * gmap string bytes :=
  match argv !! 7%nat with
  | Some out => (0, [], <[out := [x52; x49; x46; x46]]> fs)
  | None => (1, [x3f], fs)
  end.

(** An ffmpeg that leaves a partial output file and exits with status 1. *)
Definition ffmpeg_fail (argv : list string) (fs : gmap string bytes)
  : Z * bytes * gmap string bytes :=
  match argv !! 7%nat with
  | Some out => (1, [x45; x72; x72], <[out := [x52]]> fs)
  | None => (1, [x3f], fs)
  end.

(** An ffmpeg that exits with status 0 and writes a file no decoder reads. *)
Definition ffmpeg_empty (argv : list string) (fs : gmap string bytes)
  : Z * bytes * gmap string bytes :=
  match argv !! 7%nat with
  | Some out => (0, [], <[out := []]> fs)
  | None => (1, [x3f], fs)
  end.

Definition lib_with (exe : option (list string → gmap string bytes →
                                   Z * bytes * gmap string bytes))
  : externals :=
  {| pickle_load := unpickle;
     json_load := λ _, inr cfg;
     tsfel_features_json := "tsfel/feature_extraction/features.json";
     time_series_features_extractor := λ _ _ _, inr extracted;
     audio_decode := decode;
     channel_mean := λ chs, List.hd [] chs;
     resample_channel := λ s _ _, s;
     bytes_decode := λ _, inr "error text";
     export_wav := λ b, inr b;
     splitext_ext := λ _, ".mp3";
     mkstemp_name := λ _ suffix, "/tmp/tmpa1b2" +:+ suffix;
     ffmpeg := exe |}.

Definition lib : externals := lib_with (Some ffmpeg_ok).
Definition lib_no_ffmpeg : externals := lib_with None.

Definition installed (selected : bytes) : world :=
  mkWorld (list_to_map [("model_suara.joblib", [x01]);
                        ("imputer.joblib", [x02]);
                        ("selected_features.joblib", selected);
                        ("tsfel/feature_extraction/features.json", [x7b; x7d])])
          [].

Definition loaded : globals := Loaded model_obj imputer_obj names cfg.

Definition clip : UploadedFile := mkUploadedFile "buka.mp3" [x49; x44; x33].

Definition silence : ndarray := Array1 [S754_zero false; S754_zero false].

End Demo.

(** ** Further vocabulary *)

Definition is_st_error (ev : event) : bool :=
  match ev with st_error _ => true | _ => false end.

(** How many [st.error] boxes a list of events shows. *)
Definition count_st_error (l : list event) : nat :=
  length (List.filter is_st_error l).


(** Two extracted tables agree on the given column names, row by row. *)
Definition agree_on (names : list string) (t1 t2 : feature_table) : Prop :=
  Forall2 (λ r1 r2 : gmap string float, ∀ c, c ∈ names → r1 !! c = r2 !! c)
          t1 t2.

(** The two paths [process_uploaded_file] works with, its command, and the
    world in which the [try] at line 95 starts. *)
Definition upload_input_path (lib : externals) (audio_file : UploadedFile)
    (w : world) : string :=
  mkstemp_name lib (files w) (splitext_ext lib (name audio_file)).

Definition upload_output_path (lib : externals) (audio_file : UploadedFile)
    (w : world) : string :=
  upload_input_path lib audio_file w +:+ ".wav".

Definition upload_command (lib : externals) (audio_file : UploadedFile)
    (w : world) : list string :=
  ffmpeg_command (upload_input_path lib audio_file w)
                 (upload_output_path lib audio_file w).

Definition upload_files (lib : externals) (audio_file : UploadedFile)
    (w : world) : gmap string bytes :=
  <[upload_input_path lib audio_file w := getvalue audio_file]> (files w).

(** Lines 121-124 applied to a file system. *)
Definition upload_cleaned (lib : externals) (audio_file : UploadedFile)
    (w : world) (fs : gmap string bytes) : gmap string bytes :=
  delete (upload_output_path lib audio_file w)
         (delete (upload_input_path lib audio_file w) fs).

(** The IndexError lines 69-73 run into when the classifier's answer has no
    row, or a first row with fewer than three entries: [prediction[0]] fails
    on an empty answer, [pred_array[0]] on an empty row, [pred_array[2]]
    otherwise. *)
Definition short_prediction_error (prediction : list (list Z)) : exception :=
  match prediction with
  | [] => out_of_bounds 0 0
  | [] :: _ => out_of_bounds 0 0
  | pred_array :: _ => out_of_bounds 2 (length pred_array)
  end.


(** What [show_result] draws for a returned pair. *)
Definition shown (r : option string * option string) : list event :=
  match r with
  | (Some kata, Some pembicara) =>
      [st_success "Prediksi Berhasil!";
       st_metric "Kata yang Diucapkan" (upper kata);
       st_metric "Pembicara" (upper pembicara)]
  | _ => []
  end.

(** More installations: a classifier with one output column, an ffmpeg that
    exits with status 0 and writes nothing, a host whose ffmpeg fails with
    bytes on stderr that do not decode, and a corrupt model pickle. *)
Module Scenario.

Import Byte.

Definition short_model_obj : pyobj :=
  PyEstimator (mkEstimator None (Some (λ X, inr (map (λ _, [1]) X)))).

Definition ffmpeg_silent (argv : list string) (fs : gmap string bytes)
  : Z * bytes * gmap string bytes := (0, [], fs).

Definition with_decode (lib : externals) (dec : bytes → result string)
  : externals :=
  {| pickle_load := pickle_load lib;
     json_load := json_load lib;
     tsfel_features_json := tsfel_features_json lib;
     time_series_features_extractor := time_series_features_extractor lib;
     audio_decode := audio_decode lib;
     channel_mean := channel_mean lib;
     resample_channel := resample_channel lib;
     bytes_decode := dec;
     export_wav := export_wav lib;
     splitext_ext := splitext_ext lib;
     mkstemp_name := mkstemp_name lib;
     ffmpeg := ffmpeg lib |}.

Definition with_extractor (lib : externals)
    (ext : json → ndarray → Z → result feature_table) : externals :=
  {| pickle_load := pickle_load lib;
     json_load := json_load lib;
     tsfel_features_json := tsfel_features_json lib;
     time_series_features_extractor := ext;
     audio_decode := audio_decode lib;
     channel_mean := channel_mean lib;
     resample_channel := resample_channel lib;
     bytes_decode := bytes_decode lib;
     export_wav := export_wav lib;
     splitext_ext := splitext_ext lib;
     mkstemp_name := mkstemp_name lib;
     ffmpeg := ffmpeg lib |}.

Definition with_export (lib : externals) (exp : bytes → result bytes)
  : externals :=
  {| pickle_load := pickle_load lib;
     json_load := json_load lib;
     tsfel_features_json := tsfel_features_json lib;
     time_series_features_extractor := time_series_features_extractor lib;
     audio_decode := audio_decode lib;
     channel_mean := channel_mean lib;
     resample_channel := resample_channel lib;
     bytes_decode := bytes_decode lib;
     export_wav := exp;
     splitext_ext := splitext_ext lib;
     mkstemp_name := mkstemp_name lib;
     ffmpeg := ffmpeg lib |}.

Definition undecodable : exception :=
  UnicodeDecodeError "'utf-8' codec can't decode byte 0xff".

Definition lib_undecodable : externals :=
  with_decode (Demo.lib_with (Some Demo.ffmpeg_fail)) (λ _, inl undecodable).

Definition lib_silent : externals := Demo.lib_with (Some ffmpeg_silent).

(** The same table as [Demo.extracted] in the selected columns, different
    elsewhere. *)
Definition extracted_other : feature_table :=
  [ {[ "0_Mean" := S754_zero false; "0_Max" := np_neg_inf;
       "0_Entropy" := S754_finite false 1 0 ]} ].

Definition lib_other : externals :=
  with_extractor Demo.lib (λ _ _ _, inr extracted_other).

Definition no_export : exception := OtherException "CouldntEncodeError" "encoding failed".

Definition lib_no_export : externals :=
  with_export Demo.lib (λ _, inl no_export).

End Scenario.

Arguments interpret pred_array : simpl never.

(** ** The Label Interpreter (lines 72-73) *)

Lemma getitem_Some {A} (a : list A) (i : nat) (x : A) :
  a !! i = Some x → getitem a i = inr x.
Proof. unfold getitem. by intros ->. Qed.

Lemma getitem_None {A} (a : list A) (i : nat) :
  a !! i = None → getitem a i = inl (out_of_bounds i (length a)).
Proof. unfold getitem. by intros ->. Qed.

Lemma interpret_lookup (v : list Z) (x0 x2 : Z) :
  v !! 0%nat = Some x0 → v !! 2%nat = Some x2 →
  interpret v = inr (if (x0 =? 1)%Z then "Buka" else "Tutup",
                     if (x2 =? 1)%Z then "Fikri" else "Fauzan").
Proof.
  intros H0 H2. unfold interpret.
  rewrite (getitem_Some _ _ _ H0). cbn.
  rewrite (getitem_Some _ _ _ H2). reflexivity.
Qed.

Lemma interpret_short (v : list Z) :
  (length v < 3)%nat → ∃ e, interpret v = inl e.
Proof.
  intros Hlen. unfold interpret.
  destruct v as [|x0 [|x1 [|x2 rest]]]; cbn in *; try lia; eauto.
Qed.

Lemma interpret_inr (v : list Z) (kata pembicara : string) :
  interpret v = inr (kata, pembicara) →
  kata ∈ ["Buka"; "Tutup"] ∧ pembicara ∈ ["Fikri"; "Fauzan"].
Proof.
  unfold interpret.
  destruct v as [|x0 [|x1 [|x2 rest]]]; cbn; try discriminate.
  intros [= <- <-]. split.
  - destruct (x0 =? 1)%Z; set_solver.
  - destruct (x2 =? 1)%Z; set_solver.
Qed.

(** C1 as the claim words it fails: a code other than 0 and 1 is nonzero,
    yet the comparison [== 1] sends it to the second label. *)
Lemma interpret_nonzero_counterexample :
  let v : list Z := [2; 0; 2] in
  (3 ≤ length v)%nat ∧ v !! 0%nat = Some 2 ∧ v !! 2%nat = Some 2 ∧ 2 ≠ 0 ∧
  interpret v = inr ("Tutup", "Fauzan").
Proof. cbv zeta. repeat split; try reflexivity; cbn; lia. Qed.

(** C1 (amended): for every prediction vector of length at least 3, the
    interpreter yields the word "Buka" exactly when index 0 equals 1 and
    "Tutup" for every other value there (0 in particular), and the speaker
    "Fikri" exactly when index 2 equals 1 and "Fauzan" for every other
    value; so (1, _, 0) gives (Buka, Fauzan) and (0, _, 1) gives
    (Tutup, Fikri). *)
Theorem interpret_equal_one (v : list Z) :
  (3 ≤ length v)%nat →
  ∃ x0 x2 kata pembicara,
    v !! 0%nat = Some x0 ∧ v !! 2%nat = Some x2 ∧
    interpret v = inr (kata, pembicara) ∧
    (x0 = 1 → kata = "Buka") ∧ (x0 ≠ 1 → kata = "Tutup") ∧
    (x2 = 1 → pembicara = "Fikri") ∧ (x2 ≠ 1 → pembicara = "Fauzan") ∧
    (x0 = 1 → x2 = 0 → interpret v = inr ("Buka", "Fauzan")) ∧
    (x0 = 0 → x2 = 1 → interpret v = inr ("Tutup", "Fikri")).
Proof.
  intros Hlen.
  destruct v as [|x0 [|x1 [|x2 rest]]]; cbn in Hlen; try lia.
  exists x0, x2,
    (if (x0 =? 1)%Z then "Buka" else "Tutup"),
    (if (x2 =? 1)%Z then "Fikri" else "Fauzan").
  assert (Hi := interpret_lookup (x0 :: x1 :: x2 :: rest) x0 x2 eq_refl eq_refl).
  repeat split; try done.
  - by intros ->.
  - intros Hne. by destruct (Z.eqb_spec x0 1).
  - by intros ->.
  - intros Hne. by destruct (Z.eqb_spec x2 1).
  - by intros -> ->.
  - by intros -> ->.
Qed.

Lemma interpret_equal_one_witness :
  ∃ x0 x2 kata pembicara,
    ([1; 0; 0] : list Z) !! 0%nat = Some x0 ∧
    ([1; 0; 0] : list Z) !! 2%nat = Some x2 ∧
    interpret [1; 0; 0] = inr (kata, pembicara) ∧
    (x0 = 1 → kata = "Buka") ∧ (x0 ≠ 1 → kata = "Tutup") ∧
    (x2 = 1 → pembicara = "Fikri") ∧ (x2 ≠ 1 → pembicara = "Fauzan") ∧
    (x0 = 1 → x2 = 0 → interpret [1; 0; 0] = inr ("Buka", "Fauzan")) ∧
    (x0 = 0 → x2 = 1 → interpret [1; 0; 0] = inr ("Tutup", "Fikri")).
Proof. apply (interpret_equal_one [1; 0; 0]). simpl. lia. Defined.

(** C9: two prediction vectors of length at least 3 that agree at positions
    0 and 2 are interpreted identically; position 1 and the positions after
    2 do not reach the output. *)
Theorem interpret_ignores_other_positions (v1 v2 : list Z) :
  (3 ≤ length v1)%nat → (3 ≤ length v2)%nat →
  v1 !! 0%nat = v2 !! 0%nat → v1 !! 2%nat = v2 !! 2%nat →
  interpret v1 = interpret v2.
Proof.
  intros Hl1 Hl2 H0 H2.
  destruct (lookup_lt_is_Some_2 v1 0%nat) as [a Ha]; [lia|].
  destruct (lookup_lt_is_Some_2 v1 2%nat) as [b Hb]; [lia|].
  rewrite (interpret_lookup v1 a b Ha Hb).
  rewrite H0 in Ha. rewrite H2 in Hb.
  by rewrite (interpret_lookup v2 a b Ha Hb).
Qed.

Lemma interpret_ignores_other_positions_witness :
  interpret [1; 0; 0] = interpret [1; 5; 0; 7].
Proof.
  apply (interpret_ignores_other_positions [1; 0; 0] [1; 5; 0; 7]);
    simpl; solve [lia | reflexivity].
Defined.

(** ** Rules for computations *)

Ltac unfold_M :=
  unfold mbind, M_bind, mret, M_ret, raise, st_stop, emit, get_files,
    set_files, try_except, try_finally, lift, after in *.

Lemma after_nil w : after w [] = w.
Proof. destruct w. unfold after. cbn. by rewrite app_nil_r. Qed.

Lemma after_after w l1 l2 : after (after w l1) l2 = after w (l1 ++ l2)%list.
Proof. unfold after. cbn. by rewrite app_assoc. Qed.

Lemma emit_eq ev w : emit ev w = (Return tt, after w [ev]).
Proof. reflexivity. Qed.

Section Rules.

Context {A B : Type} (P : event → Prop).

Lemma spec_ret (Q : A → Prop) (a : A) : Q a → spec P Q (mret a).
Proof.
  intros HQ w r w' [= <- <-]. split.
  - exists []. by rewrite app_nil_r.
  - by intros ? [= <-].
Qed.

Lemma spec_raise (Q : A → Prop) (e : exception) : spec P Q (raise e).
Proof.
  intros w r w' [= <- <-]. split.
  - exists []. by rewrite app_nil_r.
  - intros ? [=].
Qed.

Lemma spec_stop (Q : A → Prop) : spec P Q st_stop.
Proof.
  intros w r w' [= <- <-]. split.
  - exists []. by rewrite app_nil_r.
  - intros ? [=].
Qed.

Lemma spec_lift (r : result A) : spec P (λ a, r = inr a) (lift r).
Proof. destruct r; [apply spec_raise | by apply spec_ret]. Qed.

Lemma spec_emit (ev : event) : P ev → spec P (λ _, True) (emit ev).
Proof.
  intros HP w r w' [= <- <-]. split; [|done].
  exists [ev]. split; [done|]. by constructor.
Qed.

Lemma spec_get_files : spec P (λ _, True) get_files.
Proof.
  intros w r w' [= <- <-]. split; [|done].
  exists []. by rewrite app_nil_r.
Qed.

Lemma spec_set_files fs : spec P (λ _, True) (set_files fs).
Proof.
  intros w r w' [= <- <-]. split; [|done].
  exists []. cbn. by rewrite app_nil_r.
Qed.

Lemma spec_weaken (Q Q' : A → Prop) (m : M A) :
  spec P Q m → (∀ a, Q a → Q' a) → spec P Q' m.
Proof.
  intros Hm HQ w r w' Hrun. destruct (Hm _ _ _ Hrun) as [Ht Hr].
  split; [done|]. intros a ->. by apply HQ, Hr.
Qed.

Lemma spec_bind (Q : A → Prop) (R : B → Prop) (m : M A) (k : A → M B) :
  spec P Q m → (∀ a, Q a → spec P R (k a)) → spec P R (m ≫= k).
Proof.
  intros Hm Hk w r w' Hrun. unfold mbind, M_bind in Hrun.
  destruct (m w) as [[a|e|] w1] eqn:Em;
    destruct (Hm _ _ _ Em) as [(new1 & Ht1 & HP1) HQ].
  - destruct (Hk a (HQ a eq_refl) _ _ _ Hrun) as [(new2 & Ht2 & HP2) HR].
    split; [|done]. exists (new1 ++ new2)%list. split.
    + by rewrite Ht2, Ht1, app_assoc.
    + by apply Forall_app.
  - injection Hrun as <- <-. split; [eauto|]. intros ? [=].
  - injection Hrun as <- <-. split; [eauto|]. intros ? [=].
Qed.

Lemma spec_try_except (Q : A → Prop) (body : M A) (h : exception → M A) :
  spec P Q body → (∀ e, spec P Q (h e)) → spec P Q (try_except body h).
Proof.
  intros Hb Hh w r w' Hrun. unfold try_except in Hrun.
  destruct (body w) as [[a|e|] w1] eqn:Eb;
    destruct (Hb _ _ _ Eb) as [(new1 & Ht1 & HP1) HQ].
  - injection Hrun as <- <-. split; eauto.
  - destruct (Hh e _ _ _ Hrun) as [(new2 & Ht2 & HP2) HR].
    split; [|done]. exists (new1 ++ new2)%list. split.
    + by rewrite Ht2, Ht1, app_assoc.
    + by apply Forall_app.
  - injection Hrun as <- <-. split; [eauto|]. intros ? [=].
Qed.

Lemma spec_try_finally (Q : A → Prop) (body : M A) (fin : M unit) :
  spec P Q body → spec P (λ _, True) fin → spec P Q (try_finally body fin).
Proof.
  intros Hb Hf w r w' Hrun. unfold try_finally in Hrun.
  destruct (body w) as [r1 w1] eqn:Eb.
  destruct (Hb _ _ _ Eb) as [(new1 & Ht1 & HP1) HQ].
  destruct (fin w1) as [r2 w2] eqn:Ef.
  destruct (Hf _ _ _ Ef) as [(new2 & Ht2 & HP2) _].
  assert (Hext : ∃ new : list event,
             trace w2 = (trace w ++ new)%list ∧ Forall P new).
  { exists (new1 ++ new2)%list. split.
    - by rewrite Ht2, Ht1, app_assoc.
    - by apply Forall_app. }
  destruct r2 as [[]|e|]; injection Hrun as <- <-; split; try done;
    intros ? [=].
Qed.

End Rules.

(** ** The Feature Pipeline (lines 52-79) *)

Lemma call_extractor_eq lib cfg signal sr w :
  call_time_series_features_extractor lib cfg signal sr w =
  match time_series_features_extractor lib cfg signal sr with
  | inl e => (Raise e, after w [call_extractor cfg signal sr])
  | inr features => (Return features, after w [call_extractor cfg signal sr])
  end.
Proof.
  unfold call_time_series_features_extractor. unfold_M.
  by destruct (time_series_features_extractor lib cfg signal sr).
Qed.

Lemma call_method_transform_eq imputer X w :
  call_method_transform imputer X w =
  match getattr_transform imputer with
  | None => (Raise (AttributeError "object has no attribute 'transform'"), w)
  | Some f =>
      match f X with
      | inl e => (Raise e, after w [call_transform X])
      | inr Y => (Return Y, after w [call_transform X])
      end
  end.
Proof.
  unfold call_method_transform.
  destruct (getattr_transform imputer) as [f|]; [|done].
  unfold_M. by destruct (f X).
Qed.

Lemma call_method_predict_eq model X w :
  call_method_predict model X w =
  match getattr_predict model with
  | None => (Raise (AttributeError "object has no attribute 'predict'"), w)
  | Some p =>
      match p X with
      | inl e => (Raise e, after w [call_predict X])
      | inr Y => (Return Y, after w [call_predict X])
      end
  end.
Proof.
  unfold call_method_predict.
  destruct (getattr_predict model) as [p|]; [|done].
  unfold_M. by destruct (p X).
Qed.

(** A step that raises ends the body there, with the calls made so far. *)
Lemma pipeline_body_aborted lib g signal sr e calls w :
  aborted_at lib signal sr e g calls →
  pipeline_body lib g signal sr w = (Raise e, after w calls).
Proof.
  intros Habort. unfold pipeline_body.
  inversion Habort as
    [ ???? Hx | ????? Hx Ht He | ?????? Hx Ht Hf
    | ??????? Hx Ht Hf Hp He | ???????? Hx Ht Hf Hp Hq
    | ????????? Hx Ht Hf Hp Hq Hi | Hx | ? Hx He ]; subst;
    unfold mbind at 1, M_bind at 1; rewrite call_extractor_eq, Hx; try done.
  - fold (features_no_inf_of features names).
    unfold mbind at 1, M_bind at 1. by rewrite call_method_transform_eq, Ht.
  - fold (features_no_inf_of features names).
    unfold mbind at 1, M_bind at 1.
    by rewrite call_method_transform_eq, Ht, Hf, after_after.
  - fold (features_no_inf_of features names).
    unfold mbind at 1, M_bind at 1.
    rewrite call_method_transform_eq, Ht, Hf, after_after.
    unfold mbind at 1, M_bind at 1. by rewrite call_method_predict_eq, Hp.
  - fold (features_no_inf_of features names).
    unfold mbind at 1, M_bind at 1.
    rewrite call_method_transform_eq, Ht, Hf, after_after.
    unfold mbind at 1, M_bind at 1.
    by rewrite call_method_predict_eq, Hp, Hq, after_after.
  - fold (features_no_inf_of features names).
    unfold mbind at 1, M_bind at 1.
    rewrite call_method_transform_eq, Ht, Hf, after_after.
    unfold mbind at 1, M_bind at 1.
    rewrite call_method_predict_eq, Hp, Hq, after_after. cbn [app].
    unfold mbind, result_bind in Hi.
    destruct (getitem prediction 0) as [e0|pred_array]; cbn.
    + by injection Hi as ->.
    + unfold mbind, M_bind, mret, M_ret. by rewrite Hi.
Qed.

(** Every run of the body either aborts at a step or goes through all of
    them and returns the two labels. *)
Lemma pipeline_body_cases lib g signal sr w :
  (∃ e calls, aborted_at lib signal sr e g calls ∧
     pipeline_body lib g signal sr w = (Raise e, after w calls)) ∨
  (∃ model imputer names cfg features f features_imputed p prediction
     pred_array kata pembicara,
     g = Loaded model imputer names cfg ∧
     time_series_features_extractor lib cfg signal sr = inr features ∧
     getattr_transform imputer = Some f ∧
     f (features_no_inf_of features names) = inr features_imputed ∧
     getattr_predict model = Some p ∧
     p features_imputed = inr prediction ∧
     prediction !! 0%nat = Some pred_array ∧
     interpret pred_array = inr (kata, pembicara) ∧
     pipeline_body lib g signal sr w =
       (Return (Some kata, Some pembicara),
        after w [call_extractor cfg signal sr;
                 call_transform (features_no_inf_of features names);
                 call_predict features_imputed])).
Proof.
  assert (Habort : ∀ e calls, aborted_at lib signal sr e g calls →
    ∃ e calls, aborted_at lib signal sr e g calls ∧
      pipeline_body lib g signal sr w = (Raise e, after w calls)).
  { intros e calls H. exists e, calls. split; [done|].
    by apply pipeline_body_aborted. }
  destruct g as [|model imputer names cfg].
  { left.
    destruct (time_series_features_extractor lib JNull signal sr)
      as [e|features] eqn:Hx.
    - eapply Habort. by apply abort_unloaded_extraction.
    - eapply Habort. by eapply abort_unloaded_transform. }
  destruct (time_series_features_extractor lib cfg signal sr)
    as [e|features] eqn:Hx.
  { left. eapply Habort. by apply abort_extraction. }
  destruct (getattr_transform imputer) as [f|] eqn:Ht.
  2:{ left. eapply Habort. by eapply abort_no_transform. }
  destruct (f (features_no_inf_of features names))
    as [e|features_imputed] eqn:Hf.
  { left. eapply Habort. by eapply abort_imputation. }
  destruct (getattr_predict model) as [p|] eqn:Hp.
  2:{ left. eapply Habort. by eapply abort_no_predict. }
  destruct (p features_imputed) as [e|prediction] eqn:Hq.
  { left. eapply Habort. by eapply abort_classification. }
  destruct (prediction !! 0%nat) as [pred_array|] eqn:H0.
  2:{ left. eapply Habort. eapply abort_interpretation; try done.
      by rewrite (getitem_None _ _ H0). }
  destruct (interpret pred_array) as [e|[kata pembicara]] eqn:Hi.
  { left. eapply Habort. eapply abort_interpretation; try done.
    by rewrite (getitem_Some _ _ _ H0). }
  right. exists model, imputer, names, cfg, features, f, features_imputed, p,
    prediction, pred_array, kata, pembicara.
  repeat (split; [done|]).
  unfold pipeline_body.
  unfold mbind at 1, M_bind at 1. rewrite call_extractor_eq, Hx.
  fold (features_no_inf_of features names).
  unfold mbind at 1, M_bind at 1.
  rewrite call_method_transform_eq, Ht, Hf, after_after.
  unfold mbind at 1, M_bind at 1.
  rewrite call_method_predict_eq, Hp, Hq, after_after. cbn [app].
  rewrite (getitem_Some _ _ _ H0).
  unfold mbind, M_bind, mret, M_ret, lift. simpl. by rewrite Hi.
Qed.

Lemma aborted_at_calls lib signal sr e g calls (P : event → Prop) :
  aborted_at lib signal sr e g calls →
  (∀ cfg, P (call_extractor cfg signal sr)) →
  (∀ model imputer names cfg features,
     g = Loaded model imputer names cfg →
     time_series_features_extractor lib cfg signal sr = inr features →
     P (call_transform (features_no_inf_of features names))) →
  (∀ X, P (call_predict X)) →
  Forall P calls.
Proof.
  intros Hab Hx Ht Hp.
  inversion Hab; subst; repeat constructor; eauto.
Qed.

Lemma run_prediction_pipeline_aborted lib g signal sr e calls w :
  aborted_at lib signal sr e g calls →
  run_prediction_pipeline lib g signal sr w =
    (Return (None, None),
     after w (calls ++ [st_error (pipeline_error_message e)])).
Proof.
  intros Hab. unfold run_prediction_pipeline, try_except.
  rewrite (pipeline_body_aborted _ _ _ _ _ _ w Hab).
  unfold mbind, M_bind. rewrite emit_eq, after_after. reflexivity.
Qed.

(** The events a run of the pipeline appends, by kind. *)
Lemma run_prediction_pipeline_spec lib g signal sr (P : event → Prop) :
  (∀ cfg, P (call_extractor cfg signal sr)) →
  (∀ model imputer names cfg features,
     g = Loaded model imputer names cfg →
     time_series_features_extractor lib cfg signal sr = inr features →
     P (call_transform (features_no_inf_of features names))) →
  (∀ X, P (call_predict X)) →
  (∀ msg, P (st_error msg)) →
  spec P (λ _, True) (run_prediction_pipeline lib g signal sr).
Proof.
  intros Hx Ht Hp He w r w' Hrun. split; [|done].
  destruct (pipeline_body_cases lib g signal sr w)
    as [(e & calls & Hab & Hbody)
       |(model & imputer & names & cfg & features & f & features_imputed & p
         & prediction & pred_array & kata & pembicara & -> & Hfx & _ & _ & _
         & _ & _ & _ & Hbody)].
  - rewrite (run_prediction_pipeline_aborted _ _ _ _ _ _ w Hab) in Hrun.
    injection Hrun as <- <-. eexists. split; [reflexivity|].
    apply Forall_app. split; [|by repeat constructor].
    by eapply aborted_at_calls.
  - unfold run_prediction_pipeline, try_except in Hrun.
    rewrite Hbody in Hrun. injection Hrun as <- <-.
    eexists. split; [reflexivity|]. repeat constructor; eauto.
Qed.

(** C4: when a step of the pipeline fails (extraction, imputation,
    classification or interpretation raises; projection and infinity
    replacement cannot), the later steps are not run: the calls made are
    those up to the failing step; the request returns (None, None), never a
    partial pair and never an exception; and the one thing added is the
    [st.error] message that carries the failure.  Conversely every exception
    inside the body is such an abort. *)
Theorem pipeline_failure_aborts lib g signal sr e calls w :
  aborted_at lib signal sr e g calls →
  run_prediction_pipeline lib g signal sr w =
    (Return (None, None),
     mkWorld (files w)
       (trace w ++ calls ++ [st_error (pipeline_error_message e)])%list) ∧
  pipeline_body lib g signal sr w =
    (Raise e, mkWorld (files w) (trace w ++ calls)%list) ∧
  (∀ e' w1, pipeline_body lib g signal sr w = (Raise e', w1) →
     ∃ calls', aborted_at lib signal sr e' g calls' ∧
       w1 = mkWorld (files w) (trace w ++ calls')%list).
Proof.
  intros Hab. split; [|split].
  - by apply run_prediction_pipeline_aborted.
  - by apply pipeline_body_aborted.
  - intros e' w1 Hraise.
    destruct (pipeline_body_cases lib g signal sr w)
      as [(e2 & calls2 & Hab2 & Hbody)
         |(? & ? & ? & ? & ? & ? & ? & ? & ? & ? & ? & ? & _ & _ & _ & _ & _
           & _ & _ & _ & Hbody)];
      rewrite Hbody in Hraise; [|discriminate].
    injection Hraise as -> <-. by exists calls2.
Qed.

Lemma pipeline_failure_aborts_witness :
  let g := Loaded Demo.model_obj Demo.failing_imputer_obj Demo.names Demo.cfg in
  let e := OtherException "ValueError" "X has 3 features" in
  let calls := [call_extractor Demo.cfg Demo.silence 16000;
                call_transform (features_no_inf_of Demo.extracted Demo.names)] in
  let w := mkWorld ∅ [] in
  run_prediction_pipeline Demo.lib g Demo.silence 16000 w =
    (Return (None, None),
     mkWorld (files w)
       (trace w ++ calls ++ [st_error (pipeline_error_message e)])%list) ∧
  pipeline_body Demo.lib g Demo.silence 16000 w =
    (Raise e, mkWorld (files w) (trace w ++ calls)%list) ∧
  (∀ e' w1, pipeline_body Demo.lib g Demo.silence 16000 w = (Raise e', w1) →
     ∃ calls', aborted_at Demo.lib Demo.silence 16000 e' g calls' ∧
       w1 = mkWorld (files w) (trace w ++ calls')%list).
Proof.
  cbv zeta.
  apply (pipeline_failure_aborts Demo.lib
           (Loaded Demo.model_obj Demo.failing_imputer_obj Demo.names Demo.cfg)
           Demo.silence 16000
           (OtherException "ValueError" "X has 3 features")).
  eapply abort_imputation; reflexivity.
Defined.

Lemma run_prediction_pipeline_returns lib g signal sr w :
  ∃ res, (run_prediction_pipeline lib g signal sr w).1 = Return res.
Proof.
  destruct (pipeline_body_cases lib g signal sr w)
    as [(e & calls & Hab & Hbody)
       |(? & ? & ? & ? & ? & ? & ? & ? & ? & ? & kata & pembicara & _ & _ & _
         & _ & _ & _ & _ & _ & Hbody)].
  - exists (None, None).
    by rewrite (run_prediction_pipeline_aborted _ _ _ _ _ _ w Hab).
  - exists (Some kata, Some pembicara).
    unfold run_prediction_pipeline, try_except. by rewrite Hbody.
Qed.

(** C10: whatever the globals, the signal and the rate, the pipeline returns
    (it neither raises nor stops the script), and what it returns is either
    (None, None) or a pair of a word in {Buka, Tutup} and a speaker in
    {Fikri, Fauzan}; one [None] next to one label does not occur. *)
Theorem run_prediction_pipeline_result lib g signal sr w :
  ∃ r, (run_prediction_pipeline lib g signal sr w).1 = Return r ∧
    (r = (None, None) ∨
     ∃ kata pembicara, r = (Some kata, Some pembicara) ∧
       kata ∈ ["Buka"; "Tutup"] ∧ pembicara ∈ ["Fikri"; "Fauzan"]).
Proof.
  destruct (pipeline_body_cases lib g signal sr w)
    as [(e & calls & Hab & Hbody)
       |(model & imputer & names & cfg & features & f & features_imputed & p
         & prediction & pred_array & kata & pembicara & -> & _ & _ & _ & _
         & _ & _ & Hi & Hbody)].
  - exists (None, None).
    rewrite (run_prediction_pipeline_aborted _ _ _ _ _ _ w Hab). by split; [|left].
  - exists (Some kata, Some pembicara).
    unfold run_prediction_pipeline, try_except. rewrite Hbody.
    split; [done|]. right. exists kata, pembicara. split; [done|].
    by apply interpret_inr in Hi.
Qed.

(** ** Projection and infinity replacement (lines 61 and 64) *)


Lemma reindex_row_lookup names (row : gmap string float) (j : nat) (c : string) :
  names !! j = Some c →
  reindex_row names row !! j = Some (default np_nan (row !! c)).
Proof. intros Hj. unfold reindex_row. by rewrite list_lookup_fmap, Hj. Qed.

Lemma replace_cell_infinite (c : float) :
  replace_cell [np_inf; np_neg_inf] np_nan c =
  if is_infinite c then np_nan else c.
Proof. destruct c as [s|s| |s m e]; try destruct s; reflexivity. Qed.

Lemma replace_cell_not_infinite (c : float) :
  is_infinite (replace_cell [np_inf; np_neg_inf] np_nan c) = false.
Proof. rewrite replace_cell_infinite. by destruct c. Qed.

Lemma features_no_inf_of_columns features names :
  columns (features_no_inf_of features names) = names.
Proof. reflexivity. Qed.

Lemma features_no_inf_of_values features names :
  values (features_no_inf_of features names) =
  map (map (λ c, if is_infinite c then np_nan else c))
      (values (reindex features names)).
Proof.
  unfold features_no_inf_of, replace. cbn [values].
  apply map_ext. intros row. apply map_ext. intros c.
  apply replace_cell_infinite.
Qed.


Lemma features_no_inf_of_no_infinite features names :
  no_infinite (features_no_inf_of features names).
Proof.
  unfold no_infinite, features_no_inf_of, replace. cbn [values].
  apply Forall_forall. intros cells Hin.
  apply list_elem_of_fmap in Hin as (r0 & -> & _).
  apply Forall_forall. intros c Hc.
  apply list_elem_of_fmap in Hc as (c0 & -> & _).
  apply replace_cell_not_infinite.
Qed.


Lemma features_no_inf_of_cell features names (i j : nat)
    (row : gmap string float) (c : string) :
  features !! i = Some row → names !! j = Some c →
  ∃ cells : list float,
    values (features_no_inf_of features names) !! i = Some cells ∧
    cells !! j = Some (match row !! c with
                       | Some x => if is_infinite x then np_nan else x
                       | None => np_nan
                       end).
Proof.
  intros Hi Hj. rewrite features_no_inf_of_values.
  unfold reindex. cbn [values].
  exists (map (λ c0, if is_infinite c0 then np_nan else c0)
              (reindex_row names row)).
  split.
  - change (map ?g ?l) with (g <$> l).
    by rewrite !list_lookup_fmap, Hi.
  - change (map ?g ?l) with (g <$> l).
    rewrite list_lookup_fmap, (reindex_row_lookup _ _ _ _ Hj). cbn.
    by destruct (row !! c).
Qed.

(** Two hypotheses that give the same call a result name the same result. *)
Ltac same_results :=
  repeat match goal with
         | H1 : ?t = inr ?a, H2 : ?t = inr ?b |- _ =>
             assert (b = a) by congruence; subst b; clear H2
         | H1 : ?t = Some ?a, H2 : ?t = Some ?b |- _ =>
             assert (b = a) by congruence; subst b; clear H2
         end.

(** Once extraction has returned and the imputer has a [transform], that
    method is called, right after the extractor, on the cleaned projected
    frame; what it raises ends the request, what it returns is what the
    classifier gets. *)
Lemma pipeline_reaches_imputer lib model imputer names cfg signal sr w
    features f :
  time_series_features_extractor lib cfg signal sr = inr features →
  getattr_transform imputer = Some f →
  ∃ r rest,
    run_prediction_pipeline lib (Loaded model imputer names cfg) signal sr w =
      (r, mkWorld (files w)
            (trace w ++ call_extractor cfg signal sr
                     :: call_transform (features_no_inf_of features names)
                     :: rest)%list) ∧
    (∀ e, f (features_no_inf_of features names) = inl e →
       r = Return (None, None) ∧ rest = [st_error (pipeline_error_message e)]) ∧
    (∀ Y p, f (features_no_inf_of features names) = inr Y →
       getattr_predict model = Some p → ∃ rest', rest = call_predict Y :: rest').
Proof.
  intros Hx Ht.
  destruct (pipeline_body_cases lib (Loaded model imputer names cfg) signal sr w)
    as [(e & calls & Hab & Hbody)
       |(model' & imputer' & names' & cfg' & features' & f' & features_imputed
         & p & prediction & pred_array & kata & pembicara & Hg & Hx' & Ht'
         & Hf' & Hp' & _ & _ & _ & Hbody)].
  - rewrite (run_prediction_pipeline_aborted _ _ _ _ _ _ w Hab).
    inversion Hab; subst; try congruence; same_results;
      eexists _, _; (split; [unfold after; reflexivity|]);
      (split; [intros e' He'; first [congruence | split; [done|congruence]]
              |intros Y p' HY Hp'; try congruence; same_results;
               cbn [app]; eauto]).
  - injection Hg as <- <- <- <-. same_results.
    unfold run_prediction_pipeline, try_except. rewrite Hbody.
    eexists _, _. split; [unfold after; reflexivity|].
    split; [intros e' He'; congruence
           |intros Y p' HY Hp''; same_results; eauto].
Qed.

(** C6: in every run of the pipeline, the frame that reaches
    [imputer.transform] is the projected frame with each positive and each
    negative infinity turned into NaN and every other cell as it was; it
    holds no infinity; and the pipeline returns, it does not raise.  The
    replacement is carried out: whenever extraction has returned a table and
    the imputer has a [transform], the run calls it, right after the
    extractor, on that cleaned frame, whose cell under each selected name is
    NaN where the extracted value is absent or infinite and the extracted
    value otherwise; an exception from that call ends the request, and its
    result is what the classifier is called on. *)
Theorem infinities_replaced_before_imputation lib g signal sr w r w' :
  run_prediction_pipeline lib g signal sr w = (r, w') →
  (∃ res, r = Return res) ∧
  (∃ new : list event, trace w' = (trace w ++ new)%list ∧
    ∀ X, call_transform X ∈ new →
      no_infinite X ∧
      ∃ model imputer names cfg features,
        g = Loaded model imputer names cfg ∧
        time_series_features_extractor lib cfg signal sr = inr features ∧
        columns X = names ∧
        values X = map (map (λ c, if is_infinite c then np_nan else c))
                       (values (reindex features names))) ∧
  (∀ model imputer names cfg features f,
     g = Loaded model imputer names cfg →
     time_series_features_extractor lib cfg signal sr = inr features →
     getattr_transform imputer = Some f →
     (∃ rest : list event,
        trace w' = (trace w ++ call_extractor cfg signal sr
                            :: call_transform (features_no_inf_of features names)
                            :: rest)%list ∧
        (∀ e, f (features_no_inf_of features names) = inl e →
           r = Return (None, None) ∧
           rest = [st_error (pipeline_error_message e)]) ∧
        (∀ Y p, f (features_no_inf_of features names) = inr Y →
           getattr_predict model = Some p →
           ∃ rest', rest = call_predict Y :: rest')) ∧
     no_infinite (features_no_inf_of features names) ∧
     columns (features_no_inf_of features names) = names ∧
     ∀ (i j : nat) (row : gmap string float) (c : string),
       features !! i = Some row → names !! j = Some c →
       ∃ cells : list float,
         values (features_no_inf_of features names) !! i = Some cells ∧
         cells !! j = Some (match row !! c with
                            | Some x => if is_infinite x then np_nan else x
                            | None => np_nan
                            end)).
Proof.
  intros Hrun. split; [|split].
  - destruct (run_prediction_pipeline_returns lib g signal sr w) as (res & Hres).
    rewrite Hrun in Hres. by exists res.
  - pose (P := λ ev, ∀ X, ev = call_transform X →
      no_infinite X ∧
      ∃ model imputer names cfg features,
        g = Loaded model imputer names cfg ∧
        time_series_features_extractor lib cfg signal sr = inr features ∧
        columns X = names ∧
        values X = map (map (λ c, if is_infinite c then np_nan else c))
                       (values (reindex features names))).
    assert (Hspec : spec P (λ _, True)
              (run_prediction_pipeline lib g signal sr)).
    { apply run_prediction_pipeline_spec; subst P;
        try (by intros; intros ? [=]).
      intros model imputer names cfg features -> Hx X [= <-].
      split; [apply features_no_inf_of_no_infinite|].
      exists model, imputer, names, cfg, features.
      repeat split; [done|]. apply features_no_inf_of_values. }
    destruct (Hspec _ _ _ Hrun) as [(new & Ht & Hall) _].
    exists new. split; [done|]. intros X HX.
    by apply (proj1 (Forall_forall _ _) Hall _ HX).
  - intros model imputer names cfg features f -> Hx Ht.
    split; [|split; [|split]].
    + destruct (pipeline_reaches_imputer lib model imputer names cfg signal sr
                  w features f Hx Ht) as (r0 & rest & Heq & Hfail & Hok).
      rewrite Heq in Hrun. injection Hrun as <- <-. by exists rest.
    + apply features_no_inf_of_no_infinite.
    + reflexivity.
    + intros i j row c Hi Hj. by apply features_no_inf_of_cell.
Qed.

Lemma infinities_replaced_before_imputation_witness :
  let w := mkWorld ∅ [] in
  let g := Demo.loaded in
  let run := run_prediction_pipeline Demo.lib g Demo.silence 16000 w in
  (∃ res, run.1 = Return res) ∧
  (∃ new : list event, trace run.2 = (trace w ++ new)%list ∧
    ∀ X, call_transform X ∈ new →
      no_infinite X ∧
      ∃ model imputer names cfg features,
        g = Loaded model imputer names cfg ∧
        time_series_features_extractor Demo.lib cfg Demo.silence 16000
          = inr features ∧
        columns X = names ∧
        values X = map (map (λ c, if is_infinite c then np_nan else c))
                       (values (reindex features names))) ∧
  (∀ model imputer names cfg features f,
     g = Loaded model imputer names cfg →
     time_series_features_extractor Demo.lib cfg Demo.silence 16000
       = inr features →
     getattr_transform imputer = Some f →
     (∃ rest : list event,
        trace run.2 = (trace w ++ call_extractor cfg Demo.silence 16000
                               :: call_transform (features_no_inf_of features names)
                               :: rest)%list ∧
        (∀ e, f (features_no_inf_of features names) = inl e →
           run.1 = Return (None, None) ∧
           rest = [st_error (pipeline_error_message e)]) ∧
        (∀ Y p, f (features_no_inf_of features names) = inr Y →
           getattr_predict model = Some p →
           ∃ rest', rest = call_predict Y :: rest')) ∧
     no_infinite (features_no_inf_of features names) ∧
     columns (features_no_inf_of features names) = names ∧
     ∀ (i j : nat) (row : gmap string float) (c : string),
       features !! i = Some row → names !! j = Some c →
       ∃ cells : list float,
         values (features_no_inf_of features names) !! i = Some cells ∧
         cells !! j = Some (match row !! c with
                            | Some x => if is_infinite x then np_nan else x
                            | None => np_nan
                            end)).
Proof.
  cbv zeta.
  apply (infinities_replaced_before_imputation Demo.lib Demo.loaded
           Demo.silence 16000 (mkWorld ∅ [])).
  reflexivity.
Defined.

(** ** The Asset Loader (lines 27-49) *)

Lemma open_read_eq path w :
  open_read path w =
  match files w !! path with
  | Some content => (Return content, w)
  | None => (Raise (FileNotFoundError
                      ("[Errno 2] No such file or directory: '" +:+ path +:+ "'")), w)
  end.
Proof. unfold open_read. unfold_M. by destruct (files w !! path). Qed.

Lemma joblib_load_eq lib path w :
  joblib_load lib path w =
  match files w !! path with
  | Some content =>
      match pickle_load lib content with
      | inl e => (Raise e, w)
      | inr o => (Return o, w)
      end
  | None => (Raise (FileNotFoundError
                      ("[Errno 2] No such file or directory: '" +:+ path +:+ "'")), w)
  end.
Proof.
  unfold joblib_load. unfold mbind, M_bind. rewrite open_read_eq.
  destruct (files w !! path) as [content|]; [|done].
  unfold lift, raise, mret, M_ret. by destruct (pickle_load lib content).
Qed.

Lemma get_features_by_domain_eq lib w :
  get_features_by_domain lib w =
  match files w !! tsfel_features_json lib with
  | Some content =>
      match json_load lib content with
      | inl e => (Raise e, w)
      | inr o => (Return o, w)
      end
  | None => (Raise (FileNotFoundError
                      ("[Errno 2] No such file or directory: '"
                       +:+ tsfel_features_json lib +:+ "'")), w)
  end.
Proof.
  unfold get_features_by_domain. unfold mbind, M_bind. rewrite open_read_eq.
  destruct (files w !! tsfel_features_json lib) as [content|]; [|done].
  unfold lift, raise, mret, M_ret. by destruct (json_load lib content).
Qed.

(** Both handlers of [load_assets] end in [st.stop()]. *)
Lemma load_assets_handler_stops (e : exception) w :
  ∃ msg, load_assets_handlers e w = (Stop, after w [st_error msg]).
Proof. destruct e; eexists; reflexivity. Qed.

(** The outcomes of [load_assets], by what the four reads give. *)
Lemma load_assets_cases lib w :
  (∃ msg, load_assets lib w = (Stop, after w [st_error msg])) ∨
  (∃ cm ci cs cj model imputer selected cfg,
     files w !! "model_suara.joblib" = Some cm ∧
     files w !! "imputer.joblib" = Some ci ∧
     files w !! "selected_features.joblib" = Some cs ∧
     files w !! tsfel_features_json lib = Some cj ∧
     pickle_load lib cm = inr model ∧ pickle_load lib ci = inr imputer ∧
     pickle_load lib cs = inr selected ∧ json_load lib cj = inr cfg ∧
     load_assets lib w =
       match selected with
       | PyList names => (Return (Loaded model imputer names cfg), w)
       | _ => (Return AllNone,
               after w [st_error "Error: 'selected_features.joblib' bukan sebuah list. Pastikan file sudah benar."])
       end).
Proof.
  destruct (load_assets lib w) as [r w'] eqn:Hrun.
  assert (Hstop : ∀ e, load_assets_handlers e w = (r, w') →
            ∃ msg, (r, w') = (Stop, after w [st_error msg])).
  { intros e He. destruct (load_assets_handler_stops e w) as [msg Hmsg].
    exists msg. by rewrite <- He, Hmsg. }
  unfold load_assets, try_except in Hrun.
  unfold mbind at 1, M_bind at 1 in Hrun. rewrite joblib_load_eq in Hrun.
  destruct (files w !! "model_suara.joblib") as [cm|] eqn:Hm; [|left; eauto].
  destruct (pickle_load lib cm) as [e|model] eqn:Hpm; [left; eauto|].
  unfold mbind at 1, M_bind at 1 in Hrun. rewrite joblib_load_eq in Hrun.
  destruct (files w !! "imputer.joblib") as [ci|] eqn:Hi; [|left; eauto].
  destruct (pickle_load lib ci) as [e|imputer] eqn:Hpi; [left; eauto|].
  unfold mbind at 1, M_bind at 1 in Hrun. rewrite joblib_load_eq in Hrun.
  destruct (files w !! "selected_features.joblib") as [cs|] eqn:Hs;
    [|left; eauto].
  destruct (pickle_load lib cs) as [e|selected] eqn:Hps; [left; eauto|].
  unfold mbind at 1, M_bind at 1 in Hrun.
  rewrite get_features_by_domain_eq in Hrun.
  destruct (files w !! tsfel_features_json lib) as [cj|] eqn:Hj;
    [|left; eauto].
  destruct (json_load lib cj) as [e|cfg] eqn:Hpj; [left; eauto|].
  right. exists cm, ci, cs, cj, model, imputer, selected, cfg.
  repeat (split; [done|]).
  rewrite <- Hrun. by destruct selected.
Qed.

(** X9: Whatever is pickled in place of the list, the loader returns normally
    with the four [None]s once all four reads succeed. *)
Lemma load_assets_not_list lib w cm ci cs cj model imputer selected cfg :
  files w !! "model_suara.joblib" = Some cm →
  files w !! "imputer.joblib" = Some ci →
  files w !! "selected_features.joblib" = Some cs →
  files w !! tsfel_features_json lib = Some cj →
  pickle_load lib cm = inr model → pickle_load lib ci = inr imputer →
  pickle_load lib cs = inr selected → json_load lib cj = inr cfg →
  isinstance_list selected = false →
  load_assets lib w =
    (Return AllNone,
     after w [st_error "Error: 'selected_features.joblib' bukan sebuah list. Pastikan file sudah benar."]).
Proof.
  intros Hm Hi Hs Hj Hpm Hpi Hps Hpj Hnl.
  unfold load_assets, try_except.
  unfold mbind at 1, M_bind at 1. rewrite joblib_load_eq, Hm, Hpm.
  unfold mbind at 1, M_bind at 1. rewrite joblib_load_eq, Hi, Hpi.
  unfold mbind at 1, M_bind at 1. rewrite joblib_load_eq, Hs, Hps.
  unfold mbind at 1, M_bind at 1. rewrite get_features_by_domain_eq, Hj, Hpj.
  by destruct selected.
Qed.

(** C7: when one of the four files the loader reads is absent, the loader
    shows an error and stops the script: its outcome is [Stop], and a run of
    the whole script ends there too, having rendered nothing and served no
    request. *)
Theorem load_assets_missing_file_stops lib w path :
  path ∈ artifact_files lib → files w !! path = None →
  ∃ msg,
    load_assets lib w = (Stop, mkWorld (files w) (trace w ++ [st_error msg])%list) ∧
    ∀ inp, script lib inp w
           = (Stop, mkWorld (files w) (trace w ++ [st_error msg])%list).
Proof.
  intros Hin Hnone.
  destruct (load_assets_cases lib w)
    as [[msg Hstop]
       |(cm & ci & cs & cj & m & i & s0 & c & Hm & Hi & Hs & Hj & _)].
  - exists msg. split; [done|]. intros inp.
    unfold script. unfold mbind at 1, M_bind at 1. by rewrite Hstop.
  - exfalso. unfold artifact_files in Hin.
    repeat (apply elem_of_cons in Hin as [->|Hin]; [congruence|]).
    by apply elem_of_nil in Hin.
Qed.

Lemma load_assets_missing_file_stops_witness :
  let w := mkWorld (delete "imputer.joblib" (files (Demo.installed [Byte.x03]))) [] in
  ∃ msg,
    load_assets Demo.lib w
      = (Stop, mkWorld (files w) (trace w ++ [st_error msg])%list) ∧
    ∀ inp, script Demo.lib inp w
           = (Stop, mkWorld (files w) (trace w ++ [st_error msg])%list).
Proof.
  cbv zeta.
  apply (load_assets_missing_file_stops Demo.lib _ "imputer.joblib").
  - vm_compute. set_solver.
  - reflexivity.
Defined.

(** C2, evaluated where the code departs from it: with an integer pickled
    in "selected_features.joblib" and the other artifacts in place,
    [load_assets] shows its message and returns the four [None]s instead of
    stopping; the script goes on, plays the recording and runs the pipeline
    on it with the globals all [None], and only that request fails. *)
Theorem load_assets_non_list_returns_none :
  let w := Demo.installed [Byte.x04] in
  let inp := mkUiInput None false (Some [Byte.x52]) true in
  Demo.unpickle [Byte.x04] = inr (PyInt 42) ∧
  load_assets Demo.lib w =
    (Return AllNone,
     mkWorld (files w)
       [st_error "Error: 'selected_features.joblib' bukan sebuah list. Pastikan file sudah benar."]) ∧
  script Demo.lib inp w =
    (Return tt,
     mkWorld (files w)
       [st_error "Error: 'selected_features.joblib' bukan sebuah list. Pastikan file sudah benar.";
        st_audio [Byte.x52];
        call_extractor JNull (Array1 [S754_zero false; S754_zero false]) 16000;
        st_error (pipeline_error_message
                    (AttributeError "object has no attribute 'transform'"))]).
Proof. cbv zeta. repeat split; vm_compute; reflexivity. Qed.

(** ** The Audio Normalizer (lines 82-124 and 179) *)

Lemma to_mono_ndim lib y : ndim (to_mono lib y) = 1%nat.
Proof. by destruct y. Qed.

Lemma resample_ndim lib y orig_sr target_sr :
  ndim (resample lib y orig_sr target_sr) = ndim y.
Proof. by destruct y. Qed.

Lemma ndim_1_channel_count y : ndim y = 1%nat → channel_count y = 1%nat.
Proof. by destruct y. Qed.

(** Asked for mono at a given rate, [librosa.load] answers with a
    one-dimensional array and that rate. *)
Lemma librosa_load_mono lib content target y r :
  librosa_load lib content (Some target) true = inr (y, r) →
  r = target ∧ ndim y = 1%nat ∧ channel_count y = 1%nat.
Proof.
  unfold librosa_load. unfold mbind, result_bind.
  destruct (audio_decode lib content) as [e|[y0 sr0]]; [discriminate|].
  intros [= <- <-]. split; [done|].
  assert (H : ndim (resample lib (to_mono lib y0) sr0 target) = 1%nat)
    by by rewrite resample_ndim, to_mono_ndim.
  split; [done|]. by apply ndim_1_channel_count.
Qed.

Lemma librosa_load_decoded lib content target y0 sr0 :
  audio_decode lib content = inr (y0, sr0) →
  ∃ samples,
    librosa_load lib content (Some target) true = inr (Array1 samples, target).
Proof.
  intros Hdec. unfold librosa_load. unfold mbind, result_bind. rewrite Hdec.
  destruct y0 as [s|chs]; eexists; reflexivity.
Qed.

Lemma remove_if_exists_eq path w :
  remove_if_exists path w =
  (Return tt, mkWorld (delete path (files w)) (trace w)).
Proof.
  unfold remove_if_exists. unfold_M. case_decide as Hex; [done|].
  destruct w as [fs tr]. cbn in *.
  rewrite delete_id; [done|]. by apply eq_None_not_Some.
Qed.

Lemma cleanup_eq input_temp_path output_temp_path w :
  (remove_if_exists input_temp_path;; remove_if_exists output_temp_path) w =
  (Return tt,
   mkWorld (delete output_temp_path (delete input_temp_path (files w)))
           (trace w)).
Proof.
  unfold mbind, M_bind. by rewrite !remove_if_exists_eq.
Qed.

Lemma extracts_normalized_other (ev : event) :
  (∀ cfg signal sr, ev ≠ call_extractor cfg signal sr) →
  extracts_normalized ev.
Proof. intros Hne cfg signal sr ->. by destruct (Hne cfg signal sr). Qed.

Lemma run_prediction_pipeline_normalized lib g signal sr :
  sr = TARGET_SR → ndim signal = 1%nat →
  spec extracts_normalized (λ _, True) (run_prediction_pipeline lib g signal sr).
Proof.
  intros -> Hmono. apply run_prediction_pipeline_spec.
  - intros cfg cfg' signal' sr' [= _ <- <-].
    split; [done|]. split; [done|]. by apply ndim_1_channel_count.
  - intros. by apply extracts_normalized_other.
  - intros. by apply extracts_normalized_other.
  - intros. by apply extracts_normalized_other.
Qed.

Lemma open_read_spec (P : event → Prop) path :
  spec P (λ _, True) (open_read path).
Proof.
  unfold open_read. eapply spec_bind; [apply spec_get_files|].
  intros fs _. destruct (fs !! path); [by apply spec_ret | apply spec_raise].
Qed.

Lemma librosa_load_path_spec lib path :
  spec extracts_normalized
       (λ '(y, r), r = TARGET_SR ∧ ndim y = 1%nat)
       (librosa_load_path lib path (Some TARGET_SR) true).
Proof.
  unfold librosa_load_path. eapply spec_bind; [apply open_read_spec|].
  intros content _. eapply spec_weaken; [apply spec_lift|].
  intros [y r] Hload. apply librosa_load_mono in Hload as (-> & Hmono & _).
  by split.
Qed.

Lemma subprocess_run_check_spec lib command :
  spec extracts_normalized (λ _, True) (subprocess_run_check lib command).
Proof.
  unfold subprocess_run_check.
  eapply spec_bind; [by apply spec_emit, extracts_normalized_other|].
  intros _ _. destruct (ffmpeg lib) as [exe|]; [|apply spec_raise].
  eapply spec_bind; [apply spec_get_files|]. intros fs _.
  destruct (exe command fs) as [[returncode stderr] fs'].
  eapply spec_bind; [apply spec_set_files|]. intros _ _.
  destruct (returncode =? 0)%Z; [by apply spec_ret | apply spec_raise].
Qed.

Lemma upload_handlers_spec lib e :
  spec extracts_normalized (λ _, True) (upload_handlers lib e).
Proof.
  assert (Hshow : ∀ msg, spec extracts_normalized (λ _, True)
            (emit (st_error msg);;
             mret (None, None) : M (option string * option string))).
  { intros msg.
    eapply spec_bind; [by apply spec_emit, extracts_normalized_other|].
    intros _ _. by apply spec_ret. }
  destruct e; try apply Hshow.
  unfold upload_handlers. eapply spec_bind; [apply spec_lift|].
  intros text _. apply Hshow.
Qed.

Lemma process_uploaded_file_spec lib g audio_file :
  spec extracts_normalized (λ _, True) (process_uploaded_file lib g audio_file).
Proof.
  unfold process_uploaded_file.
  eapply spec_bind with (Q := λ _, True).
  { unfold NamedTemporaryFile_write.
    eapply spec_bind; [apply spec_get_files|]. intros fs _.
    eapply spec_bind; [apply spec_set_files|]. intros _ _. by apply spec_ret. }
  intros input_temp_path _. apply spec_try_finally.
  - apply spec_try_except; [|apply upload_handlers_spec].
    unfold upload_try_body.
    eapply spec_bind; [apply subprocess_run_check_spec|]. intros _ _.
    eapply spec_bind; [apply librosa_load_path_spec|].
    intros [signal sr] [-> Hmono].
    by apply run_prediction_pipeline_normalized.
  - eapply spec_bind with (Q := λ _, True); intros;
      (eapply spec_bind; [apply spec_get_files|]); intros fs _;
      case_decide; solve [apply spec_set_files | by apply spec_ret].
Qed.

Lemma show_result_spec r : spec extracts_normalized (λ _, True) (show_result r).
Proof.
  unfold show_result. destruct r as [[kata|] [pembicara|]];
    try by apply spec_ret.
  destruct (truthy (Some kata) && truthy (Some pembicara));
    [|by apply spec_ret].
  eapply spec_bind; [by apply spec_emit, extracts_normalized_other|].
  intros _ _.
  eapply spec_bind; [by apply spec_emit, extracts_normalized_other|].
  intros _ _. by apply spec_emit, extracts_normalized_other.
Qed.

Lemma predict_recording_spec lib g wav_audio_bytes :
  spec extracts_normalized (λ _, True) (predict_recording lib g wav_audio_bytes).
Proof.
  unfold predict_recording. apply spec_try_except.
  - eapply spec_bind; [apply spec_lift|].
    intros [signal sr] Hload. apply librosa_load_mono in Hload as (-> & Hmono & _).
    eapply spec_bind; [by apply run_prediction_pipeline_normalized|].
    intros r _. apply show_result_spec.
  - intros e. by apply spec_emit, extracts_normalized_other.
Qed.

(** C8: on both paths the signal that leaves the normalizer is mono at
    16000 Hz.  [librosa.load] is called with [sr=TARGET_SR, mono=True]: on
    bytes that decode it answers with a one-dimensional array and the rate
    16000, whatever the channel layout and native rate of the source; and in
    every run of the upload handler and of the recorder handler, each
    feature extraction is requested on a one-channel signal at rate 16000. *)
Theorem normalized_signal_is_mono_at_target_rate lib g :
  TARGET_SR = 16000 ∧
  (∀ content y0 sr0, audio_decode lib content = inr (y0, sr0) →
     ∃ samples, librosa_load lib content (Some TARGET_SR) true
                = inr (Array1 samples, 16000)) ∧
  (∀ content y r, librosa_load lib content (Some TARGET_SR) true = inr (y, r) →
     r = 16000 ∧ ndim y = 1%nat ∧ channel_count y = 1%nat) ∧
  (∀ audio_file w r w', process_uploaded_file lib g audio_file w = (r, w') →
     ∃ new : list event, trace w' = (trace w ++ new)%list ∧
       ∀ cfg signal sr, call_extractor cfg signal sr ∈ new →
         sr = 16000 ∧ ndim signal = 1%nat ∧ channel_count signal = 1%nat) ∧
  (∀ wav_audio_bytes w r w',
     predict_recording lib g wav_audio_bytes w = (r, w') →
     ∃ new : list event, trace w' = (trace w ++ new)%list ∧
       ∀ cfg signal sr, call_extractor cfg signal sr ∈ new →
         sr = 16000 ∧ ndim signal = 1%nat ∧ channel_count signal = 1%nat).
Proof.
  split; [reflexivity|]. split; [|split; [|split]].
  - intros content y0 sr0 Hdec. by eapply librosa_load_decoded.
  - intros content y r Hload. by apply librosa_load_mono in Hload.
  - intros audio_file w r w' Hrun.
    destruct (process_uploaded_file_spec lib g audio_file _ _ _ Hrun)
      as [(new & Ht & Hall) _].
    exists new. split; [done|]. intros cfg signal sr Hin.
    by apply (proj1 (Forall_forall _ _) Hall _ Hin cfg signal sr).
  - intros wav w r w' Hrun.
    destruct (predict_recording_spec lib g wav _ _ _ Hrun)
      as [(new & Ht & Hall) _].
    exists new. split; [done|]. intros cfg signal sr Hin.
    by apply (proj1 (Forall_forall _ _) Hall _ Hin cfg signal sr).
Qed.

(** C5: after [process_uploaded_file], on every way out of it (a returned
    pair, a returned (None, None) after any of the three handlers, or an
    exception leaving a handler), neither the temporary input file nor the
    ".wav" file beside it exists.  When no ffmpeg is found the outcome is a
    normal return of (None, None), the one message shown is the "FFmpeg
    tidak ditemukan" one, nothing else has run, and the files are those from
    before the call minus these two paths (so unchanged when both names were
    free). *)
Theorem process_uploaded_file_cleans_up lib g audio_file w r w' :
  process_uploaded_file lib g audio_file w = (r, w') →
  let input_temp_path :=
    mkstemp_name lib (files w) (splitext_ext lib (name audio_file)) in
  let output_temp_path := input_temp_path +:+ ".wav" in
  files w' !! input_temp_path = None ∧
  files w' !! output_temp_path = None ∧
  (ffmpeg lib = None →
     r = Return (None, None) ∧
     trace w' =
       (trace w ++
        [call_subprocess (ffmpeg_command input_temp_path output_temp_path);
         st_error "ERROR: FFmpeg tidak ditemukan. Pastikan FFmpeg sudah terinstal."])%list ∧
     files w' = delete output_temp_path (delete input_temp_path (files w)) ∧
     (files w !! input_temp_path = None →
      files w !! output_temp_path = None → files w' = files w)).
Proof.
  intros Hrun input_temp_path output_temp_path.
  unfold process_uploaded_file in Hrun.
  unfold mbind at 1, M_bind at 1 in Hrun.
  change (NamedTemporaryFile_write lib (splitext_ext lib (name audio_file))
            (getvalue audio_file) w)
    with (Return input_temp_path,
          mkWorld (<[input_temp_path := getvalue audio_file]> (files w))
                  (trace w)) in Hrun.
  unfold try_finally in Hrun.
  match type of Hrun with
  | context [try_except ?body ?handlers ?w0] =>
      destruct (try_except body handlers w0) as [r1 w1] eqn:Hbody
  end.
  rewrite cleanup_eq in Hrun. injection Hrun as <- <-. cbn [files trace].
  split; [|split].
  - apply lookup_delete_None. right. apply lookup_delete_eq.
  - apply lookup_delete_eq.
  - intros Hff. revert Hbody.
    unfold try_except, upload_try_body, subprocess_run_check.
    rewrite Hff. unfold_M. cbn. unfold_M. cbn [files trace].
    intros Heq. injection Heq as Hr Hw. subst r1 w1. cbn [files trace].
    rewrite delete_insert_eq. repeat split; try done.
    + by rewrite <- app_assoc.
    + intros Hin Hout. rewrite (delete_id _ _ Hin). by apply delete_id.
Qed.

Lemma process_uploaded_file_cleans_up_witness :
  let w := mkWorld ∅ [] in
  let run := process_uploaded_file Demo.lib_no_ffmpeg Demo.loaded Demo.clip w in
  let input_temp_path := "/tmp/tmpa1b2.mp3" in
  let output_temp_path := "/tmp/tmpa1b2.mp3.wav" in
  files run.2 !! input_temp_path = None ∧
  files run.2 !! output_temp_path = None ∧
  (ffmpeg Demo.lib_no_ffmpeg = None →
     run.1 = Return (None, None) ∧
     trace run.2 =
       (trace w ++
        [call_subprocess (ffmpeg_command input_temp_path output_temp_path);
         st_error "ERROR: FFmpeg tidak ditemukan. Pastikan FFmpeg sudah terinstal."])%list ∧
     files run.2 = delete output_temp_path (delete input_temp_path (files w)) ∧
     (files w !! input_temp_path = None →
      files w !! output_temp_path = None → files run.2 = files w)).
Proof.
  cbv zeta.
  apply (process_uploaded_file_cleans_up Demo.lib_no_ffmpeg Demo.loaded
           Demo.clip (mkWorld ∅ [])).
  reflexivity.
Defined.

(** ** The script on the small installation *)

Example pipeline_on_silence :
  run_prediction_pipeline Demo.lib Demo.loaded Demo.silence 16000 (mkWorld ∅ [])
  = (Return (Some "Buka", Some "Fauzan"),
     mkWorld ∅
       [call_extractor Demo.cfg Demo.silence 16000;
        call_transform
          (mkDataFrame Demo.names [[S754_zero false; np_nan; np_nan]]);
        call_predict [[S754_zero false; S754_zero false; S754_zero false]]]).
Proof. vm_compute. reflexivity. Qed.

Example upload_success :
  let run := process_uploaded_file Demo.lib Demo.loaded Demo.clip (mkWorld ∅ []) in
  run.1 = Return (Some "Buka", Some "Fauzan") ∧ files run.2 = ∅.
Proof. split; vm_compute; reflexivity. Qed.

Example upload_transcoder_fails :
  let run := process_uploaded_file (Demo.lib_with (Some Demo.ffmpeg_fail))
               Demo.loaded Demo.clip (mkWorld ∅ []) in
  run.1 = Return (None, None) ∧ files run.2 = ∅ ∧
  last (trace run.2) = Some (st_error "Error saat konversi FFmpeg: error text").
Proof. repeat split; vm_compute; reflexivity. Qed.

Example upload_decode_fails :
  let run := process_uploaded_file (Demo.lib_with (Some Demo.ffmpeg_empty))
               Demo.loaded Demo.clip (mkWorld ∅ []) in
  run.1 = Return (None, None) ∧ files run.2 = ∅ ∧
  last (trace run.2)
  = Some (st_error "Terjadi error saat memproses file upload: no backend").
Proof. repeat split; vm_compute; reflexivity. Qed.

Example load_assets_on_installation :
  (load_assets Demo.lib (Demo.installed [Byte.x03])).1 = Return Demo.loaded.
Proof. vm_compute. reflexivity. Qed.

Example script_on_recording :
  let inp := mkUiInput None false (Some [Byte.x52]) true in
  let run := script Demo.lib inp (Demo.installed [Byte.x03]) in
  run.1 = Return tt ∧
  trace run.2 =
    [st_audio [Byte.x52];
     call_extractor Demo.cfg Demo.silence 16000;
     call_transform (mkDataFrame Demo.names [[S754_zero false; np_nan; np_nan]]);
     call_predict [[S754_zero false; S754_zero false; S754_zero false]];
     st_success "Prediksi Berhasil!";
     st_metric "Kata yang Diucapkan" "BUKA";
     st_metric "Pembicara" "FAUZAN"].
Proof. split; vm_compute; reflexivity. Qed.

(** ** More on the Feature Pipeline (lines 52-79) *)

Lemma interpret_short_error (v : list Z) :
  (length v < 3)%nat →
  interpret v = inl (match v with
                     | [] => out_of_bounds 0 0
                     | _ => out_of_bounds 2 (length v)
                     end).
Proof.
  intros Hlen. unfold interpret.
  destruct v as [|x0 [|x1 [|x2 rest]]]; cbn [length] in *; try lia;
    reflexivity.
Qed.

Lemma aborted_at_no_error lib signal sr e g calls :
  aborted_at lib signal sr e g calls → count_st_error calls = 0%nat.
Proof. intros Hab. by inversion Hab. Qed.

Lemma count_st_error_app l1 l2 :
  count_st_error (l1 ++ l2) = (count_st_error l1 + count_st_error l2)%nat.
Proof.
  unfold count_st_error. by rewrite List.filter_app, length_app.
Qed.

(** X1: A run in which every step succeeds: the three library calls are made in
    order, each on the previous one's result, nothing is shown, the files
    are untouched, and the labels are read off row 0 of the prediction; any
    further rows are ignored. *)
Theorem pipeline_complete_run lib model imputer names cfg signal sr w
    features f features_imputed p prediction pred_array x0 x2 :
  time_series_features_extractor lib cfg signal sr = inr features →
  getattr_transform imputer = Some f →
  f (features_no_inf_of features names) = inr features_imputed →
  getattr_predict model = Some p →
  p features_imputed = inr prediction →
  prediction !! 0%nat = Some pred_array →
  pred_array !! 0%nat = Some x0 → pred_array !! 2%nat = Some x2 →
  run_prediction_pipeline lib (Loaded model imputer names cfg) signal sr w =
    (Return (Some (if (x0 =? 1)%Z then "Buka" else "Tutup"),
             Some (if (x2 =? 1)%Z then "Fikri" else "Fauzan")),
     mkWorld (files w)
       (trace w ++ [call_extractor cfg signal sr;
                    call_transform (features_no_inf_of features names);
                    call_predict features_imputed])%list).
Proof.
  intros Hx Ht Hf Hp Hq H0 Hi0 Hi2.
  unfold run_prediction_pipeline, try_except, pipeline_body.
  unfold mbind at 1, M_bind at 1. rewrite call_extractor_eq, Hx.
  fold (features_no_inf_of features names).
  unfold mbind at 1, M_bind at 1.
  rewrite call_method_transform_eq, Ht, Hf, after_after.
  unfold mbind at 1, M_bind at 1.
  rewrite call_method_predict_eq, Hp, Hq, after_after. cbn [app].
  rewrite (getitem_Some _ _ _ H0).
  unfold mbind, M_bind, mret, M_ret, lift. simpl.
  by rewrite (interpret_lookup _ _ _ Hi0 Hi2).
Qed.

Lemma pipeline_complete_run_witness :
  run_prediction_pipeline Demo.lib Demo.loaded Demo.silence 16000 (mkWorld ∅ [])
  = (Return (Some (if (1 =? 1)%Z then "Buka" else "Tutup"),
             Some (if (0 =? 1)%Z then "Fikri" else "Fauzan")),
     mkWorld ∅
       ([] ++ [call_extractor Demo.cfg Demo.silence 16000;
               call_transform (features_no_inf_of Demo.extracted Demo.names);
               call_predict [[S754_zero false; S754_zero false;
                              S754_zero false]]])%list).
Proof.
  eapply (pipeline_complete_run Demo.lib Demo.model_obj Demo.imputer_obj
            Demo.names Demo.cfg Demo.silence 16000 (mkWorld ∅ [])
            Demo.extracted _ _ _ [[1; 0; 0]] [1; 0; 0] 1 0); reflexivity.
Defined.

(** X2: With the globals all [None] (what [load_assets] leaves behind when the
    pickled feature list is not a list), every request fails: the result is
    (None, None), one error is shown, and neither the imputer nor the
    classifier is reached. *)
Theorem pipeline_unloaded_globals_fail lib signal sr w :
  ∃ e, run_prediction_pipeline lib AllNone signal sr w =
    (Return (None, None),
     mkWorld (files w)
       (trace w ++ [call_extractor JNull signal sr;
                    st_error (pipeline_error_message e)])%list).
Proof.
  destruct (time_series_features_extractor lib JNull signal sr)
    as [e|features] eqn:Hx.
  - exists e.
    by rewrite (run_prediction_pipeline_aborted _ _ _ _ _ _ w
                  (abort_unloaded_extraction _ _ _ _ Hx)).
  - eexists.
    by rewrite (run_prediction_pipeline_aborted _ _ _ _ _ _ w
                  (abort_unloaded_transform _ _ _ _ _ Hx eq_refl)).
Qed.

(** X3: A classifier that answers with no row, or with a first row of fewer than
    three entries, makes the request fail with numpy's index error ("index 2
    is out of bounds for axis 0 with size 1" for a one-entry row): the
    result is (None, None), not a word without a speaker, even when entry 0
    is there. *)
Theorem pipeline_short_prediction_fails lib model imputer names cfg signal sr w
    features f features_imputed p prediction :
  time_series_features_extractor lib cfg signal sr = inr features →
  getattr_transform imputer = Some f →
  f (features_no_inf_of features names) = inr features_imputed →
  getattr_predict model = Some p →
  p features_imputed = inr prediction →
  (∀ pred_array, prediction !! 0%nat = Some pred_array →
     (length pred_array < 3)%nat) →
  run_prediction_pipeline lib (Loaded model imputer names cfg) signal sr w =
    (Return (None, None),
     mkWorld (files w)
       (trace w ++ [call_extractor cfg signal sr;
                    call_transform (features_no_inf_of features names);
                    call_predict features_imputed;
                    st_error (pipeline_error_message
                                (short_prediction_error prediction))])%list).
Proof.
  intros Hx Ht Hf Hp Hq Hshort.
  assert (Hab : aborted_at lib signal sr (short_prediction_error prediction)
                  (Loaded model imputer names cfg)
                  [call_extractor cfg signal sr;
                   call_transform (features_no_inf_of features names);
                   call_predict features_imputed]).
  { eapply abort_interpretation; try done.
    destruct prediction as [|pred_array rest].
    - reflexivity.
    - rewrite (getitem_Some (pred_array :: rest) 0 pred_array eq_refl).
      cbn [mbind result_bind].
      rewrite (interpret_short_error pred_array (Hshort pred_array eq_refl)).
      by destruct pred_array. }
  by rewrite (run_prediction_pipeline_aborted _ _ _ _ _ _ w Hab).
Qed.

Lemma pipeline_short_prediction_fails_witness :
  let g := Loaded Scenario.short_model_obj Demo.imputer_obj Demo.names Demo.cfg in
  run_prediction_pipeline Demo.lib g Demo.silence 16000 (mkWorld ∅ []) =
    (Return (None, None),
     mkWorld ∅
       ([] ++ [call_extractor Demo.cfg Demo.silence 16000;
               call_transform (features_no_inf_of Demo.extracted Demo.names);
               call_predict [[S754_zero false; S754_zero false;
                              S754_zero false]];
               st_error (pipeline_error_message
                           (IndexError "index 2 is out of bounds for axis 0 with size 1"))])%list).
Proof.
  cbv zeta.
  eapply (pipeline_short_prediction_fails Demo.lib Scenario.short_model_obj
            Demo.imputer_obj Demo.names Demo.cfg Demo.silence 16000
            (mkWorld ∅ []) Demo.extracted _ _ _ [[1]]); try reflexivity.
  intros pred_array [= <-]. simpl. lia.
Defined.

(** X4: A request shows an error exactly when it has no result: a run that
    returns (None, None) has appended exactly one [st.error], as its last
    event; a run that returns two labels has appended none.  Neither
    touches the files. *)
Theorem pipeline_one_error_iff_no_result lib g signal sr w r w' :
  run_prediction_pipeline lib g signal sr w = (r, w') →
  files w' = files w ∧
  ∃ new : list event, trace w' = (trace w ++ new)%list ∧
    ((r = Return (None, None) ∧ count_st_error new = 1%nat ∧
      ∃ msg, last new = Some (st_error msg)) ∨
     (∃ kata pembicara, r = Return (Some kata, Some pembicara) ∧
        count_st_error new = 0%nat)).
Proof.
  intros Hrun.
  destruct (pipeline_body_cases lib g signal sr w)
    as [(e & calls & Hab & Hbody)
       |(model & imputer & names & cfg & features & f & features_imputed & p
         & prediction & pred_array & kata & pembicara & -> & _ & _ & _ & _
         & _ & _ & _ & Hbody)].
  - rewrite (run_prediction_pipeline_aborted _ _ _ _ _ _ w Hab) in Hrun.
    injection Hrun as <- <-. split; [done|].
    eexists. split; [reflexivity|]. left. split; [done|]. split.
    + rewrite count_st_error_app, (aborted_at_no_error _ _ _ _ _ _ Hab).
      reflexivity.
    + eexists. apply last_snoc.
  - unfold run_prediction_pipeline, try_except in Hrun.
    rewrite Hbody in Hrun. injection Hrun as <- <-. split; [done|].
    eexists. split; [reflexivity|]. right. by exists kata, pembicara.
Qed.

Lemma pipeline_one_error_iff_no_result_witness :
  let w := mkWorld ∅ [] in
  let g := Loaded Scenario.short_model_obj Demo.imputer_obj Demo.names Demo.cfg in
  let run := run_prediction_pipeline Demo.lib g Demo.silence 16000 w in
  files run.2 = files w ∧
  ∃ new : list event, trace run.2 = (trace w ++ new)%list ∧
    ((run.1 = Return (None, None) ∧ count_st_error new = 1%nat ∧
      ∃ msg, last new = Some (st_error msg)) ∨
     (∃ kata pembicara, run.1 = Return (Some kata, Some pembicara) ∧
        count_st_error new = 0%nat)).
Proof.
  cbv zeta.
  apply (pipeline_one_error_iff_no_result Demo.lib
           (Loaded Scenario.short_model_obj Demo.imputer_obj Demo.names
              Demo.cfg) Demo.silence 16000 (mkWorld ∅ [])).
  reflexivity.
Defined.

Lemma aborted_at_predict_arg lib signal sr e g calls X :
  aborted_at lib signal sr e g calls → call_predict X ∈ calls →
  ∃ model imputer names cfg features f,
    g = Loaded model imputer names cfg ∧
    time_series_features_extractor lib cfg signal sr = inr features ∧
    getattr_transform imputer = Some f ∧
    f (features_no_inf_of features names) = inr X.
Proof.
  intros Hab Hin.
  inversion Hab; subst;
    repeat (apply elem_of_cons in Hin as [Heq|Hin]; [try discriminate Heq|]);
    try (by apply elem_of_nil in Hin);
    injection Heq as ->; by eexists _, _, _, _, _, _.
Qed.

(** X5: The classifier is only ever called on what the imputer returned for the
    cleaned, projected frame of this request: never on raw features, and
    never when extraction or imputation failed. *)
Theorem classifier_input_is_imputer_output lib g signal sr w r w' :
  run_prediction_pipeline lib g signal sr w = (r, w') →
  ∃ new : list event, trace w' = (trace w ++ new)%list ∧
    ∀ X, call_predict X ∈ new →
      ∃ model imputer names cfg features f,
        g = Loaded model imputer names cfg ∧
        time_series_features_extractor lib cfg signal sr = inr features ∧
        getattr_transform imputer = Some f ∧
        f (features_no_inf_of features names) = inr X.
Proof.
  intros Hrun.
  destruct (pipeline_body_cases lib g signal sr w)
    as [(e & calls & Hab & Hbody)
       |(model & imputer & names & cfg & features & f & features_imputed & p
         & prediction & pred_array & kata & pembicara & -> & Hx & Ht & Hf & _
         & _ & _ & _ & Hbody)].
  - rewrite (run_prediction_pipeline_aborted _ _ _ _ _ _ w Hab) in Hrun.
    injection Hrun as <- <-. eexists. split; [reflexivity|].
    intros X Hin. apply elem_of_app in Hin as [Hin|Hin].
    + by eapply aborted_at_predict_arg.
    + apply elem_of_cons in Hin as [Heq|Hin]; [discriminate|].
      by apply elem_of_nil in Hin.
  - unfold run_prediction_pipeline, try_except in Hrun.
    rewrite Hbody in Hrun. injection Hrun as <- <-.
    eexists. split; [reflexivity|]. intros X Hin.
    repeat (apply elem_of_cons in Hin as [Heq|Hin]; [try discriminate Heq|]);
      [|by apply elem_of_nil in Hin].
    injection Heq as ->. by exists model, imputer, names, cfg, features, f.
Qed.

Lemma classifier_input_is_imputer_output_witness :
  let w := mkWorld ∅ [] in
  let run := run_prediction_pipeline Demo.lib Demo.loaded Demo.silence 16000 w in
  ∃ new : list event, trace run.2 = (trace w ++ new)%list ∧
    ∀ X, call_predict X ∈ new →
      ∃ model imputer names cfg features f,
        Demo.loaded = Loaded model imputer names cfg ∧
        time_series_features_extractor Demo.lib cfg Demo.silence 16000
          = inr features ∧
        getattr_transform imputer = Some f ∧
        f (features_no_inf_of features names) = inr X.
Proof.
  cbv zeta.
  apply (classifier_input_is_imputer_output Demo.lib Demo.loaded Demo.silence
           16000 (mkWorld ∅ [])
           (run_prediction_pipeline Demo.lib Demo.loaded Demo.silence 16000
              (mkWorld ∅ [])).1).
  reflexivity.
Defined.

Lemma reindex_row_agree names (r1 r2 : gmap string float) :
  (∀ c, c ∈ names → r1 !! c = r2 !! c) →
  reindex_row names r1 = reindex_row names r2.
Proof.
  intros Hagree. unfold reindex_row. apply list_eq. intros j.
  rewrite !list_lookup_fmap.
  destruct (names !! j) as [c|] eqn:Hj; [|done]. cbn.
  by rewrite (Hagree c (list_elem_of_lookup_2 _ _ _ Hj)).
Qed.

Lemma reindex_agree names t1 t2 :
  agree_on names t1 t2 → reindex t1 names = reindex t2 names.
Proof.
  intros Hagree. unfold reindex. f_equal.
  induction Hagree as [|r1 r2 t1 t2 Hr _ IH]; [done|].
  cbn. by rewrite (reindex_row_agree _ _ _ Hr), IH.
Qed.

(** X6: Features outside the selected list have no influence: two extractions
    that agree, row by row, on the selected names (and may differ in every
    other column, or in which other columns exist) give the same result and
    the same calls and messages, whatever the imputer and the classifier. *)
Theorem unselected_columns_do_not_matter lib1 lib2 model imputer names cfg
    signal sr w t1 t2 :
  time_series_features_extractor lib1 cfg signal sr = inr t1 →
  time_series_features_extractor lib2 cfg signal sr = inr t2 →
  agree_on names t1 t2 →
  run_prediction_pipeline lib1 (Loaded model imputer names cfg) signal sr w =
  run_prediction_pipeline lib2 (Loaded model imputer names cfg) signal sr w.
Proof.
  intros H1 H2 Hagree.
  unfold run_prediction_pipeline, try_except, pipeline_body.
  unfold mbind, M_bind.
  rewrite (call_extractor_eq lib1), (call_extractor_eq lib2), H1, H2.
  by rewrite (reindex_agree _ _ _ Hagree).
Qed.

Lemma unselected_columns_do_not_matter_witness :
  run_prediction_pipeline Demo.lib Demo.loaded Demo.silence 16000 (mkWorld ∅ [])
  = run_prediction_pipeline Scenario.lib_other Demo.loaded Demo.silence 16000
      (mkWorld ∅ []).
Proof.
  apply (unselected_columns_do_not_matter Demo.lib Scenario.lib_other
           Demo.model_obj Demo.imputer_obj Demo.names Demo.cfg Demo.silence
           16000 (mkWorld ∅ []) Demo.extracted Scenario.extracted_other);
    try reflexivity.
  constructor; [|constructor].
  intros c Hc. unfold Demo.names in Hc.
  repeat (apply elem_of_cons in Hc as [->|Hc]; [vm_compute; reflexivity|]).
  by apply elem_of_nil in Hc.
Defined.

(** ** More on the Asset Loader (lines 27-49) *)

(** X7: [load_assets] never lets an exception out and never writes a file.  It
    ends in one of three ways: the four objects, with nothing shown; the four
    [None]s, with the not-a-list message; or [st.stop()], after exactly one
    error message. *)
Theorem load_assets_outcomes lib w :
  ∃ r w', load_assets lib w = (r, w') ∧ files w' = files w ∧
    ((∃ model imputer names cfg,
        r = Return (Loaded model imputer names cfg) ∧ w' = w) ∨
     (r = Return AllNone ∧
      trace w' = (trace w ++ [st_error "Error: 'selected_features.joblib' bukan sebuah list. Pastikan file sudah benar."])%list) ∨
     (r = Stop ∧ ∃ msg, trace w' = (trace w ++ [st_error msg])%list)).
Proof.
  destruct (load_assets_cases lib w)
    as [[msg Hstop]
       |(cm & ci & cs & cj & model & imputer & selected & cfg & _ & _ & _ & _
         & _ & _ & _ & _ & Heq)].
  - eexists _, _. split; [exact Hstop|]. split; [done|].
    right. right. split; [done|]. by exists msg.
  - destruct selected as [| | |names| |];
      eexists _, _; (split; [exact Heq|]); (split; [done|]);
      solve [ left; by eexists _, _, _, _ | right; left; by split ].
Qed.

(** X8: With the four files in place and readable, and a list pickled in
    "selected_features.joblib", the loader returns the classifier from
    "model_suara.joblib", the imputer from "imputer.joblib", that list and
    TSFEL's dictionary, in this order, and shows nothing. *)
Theorem load_assets_loads lib w cm ci cs cj model imputer names cfg :
  files w !! "model_suara.joblib" = Some cm →
  files w !! "imputer.joblib" = Some ci →
  files w !! "selected_features.joblib" = Some cs →
  files w !! tsfel_features_json lib = Some cj →
  pickle_load lib cm = inr model → pickle_load lib ci = inr imputer →
  pickle_load lib cs = inr (PyList names) → json_load lib cj = inr cfg →
  load_assets lib w = (Return (Loaded model imputer names cfg), w).
Proof.
  intros Hm Hi Hs Hj Hpm Hpi Hps Hpj.
  unfold load_assets, try_except.
  unfold mbind at 1, M_bind at 1. rewrite joblib_load_eq, Hm, Hpm.
  unfold mbind at 1, M_bind at 1. rewrite joblib_load_eq, Hi, Hpi.
  unfold mbind at 1, M_bind at 1. rewrite joblib_load_eq, Hs, Hps.
  unfold mbind at 1, M_bind at 1. by rewrite get_features_by_domain_eq, Hj, Hpj.
Qed.

Lemma load_assets_loads_witness :
  load_assets Demo.lib (Demo.installed [Byte.x03])
  = (Return (Loaded Demo.model_obj Demo.imputer_obj Demo.names Demo.cfg),
     Demo.installed [Byte.x03]).
Proof.
  apply (load_assets_loads Demo.lib (Demo.installed [Byte.x03])
           [Byte.x01] [Byte.x02] [Byte.x03] [Byte.x7b; Byte.x7d]);
    reflexivity.
Defined.

Lemma load_assets_not_list_witness :
  load_assets Demo.lib (Demo.installed [Byte.x04]) =
    (Return AllNone,
     after (Demo.installed [Byte.x04])
       [st_error "Error: 'selected_features.joblib' bukan sebuah list. Pastikan file sudah benar."]).
Proof.
  apply (load_assets_not_list Demo.lib (Demo.installed [Byte.x04])
           [Byte.x01] [Byte.x02] [Byte.x04] [Byte.x7b; Byte.x7d]
           Demo.model_obj Demo.imputer_obj (PyInt 42) Demo.cfg);
    reflexivity.
Defined.

(** X10: An artifact that is present but cannot be deserialised (a pickle that
    fails to load, or a features.json that fails to parse) stops the script
    just as a missing one does, whatever the state of the other three. *)
Theorem load_assets_corrupt_artifact_stops lib w path content e :
  files w !! path = Some content →
  (path ∈ ["model_suara.joblib"; "imputer.joblib"; "selected_features.joblib"]
   ∧ pickle_load lib content = inl e) ∨
  (path = tsfel_features_json lib ∧ json_load lib content = inl e) →
  ∃ msg,
    load_assets lib w = (Stop, mkWorld (files w) (trace w ++ [st_error msg])%list).
Proof.
  intros Hfile Hbad.
  destruct (load_assets_cases lib w)
    as [[msg Hstop]
       |(cm & ci & cs & cj & m & i & s0 & c & Hm & Hi & Hs & Hj & Hpm & Hpi
         & Hps & Hpj & _)].
  - by exists msg.
  - exfalso. destruct Hbad as [[Hin Hp]|[-> Hp]].
    + repeat (apply elem_of_cons in Hin as [->|Hin]; [congruence|]).
      by apply elem_of_nil in Hin.
    + congruence.
Qed.

Lemma load_assets_corrupt_artifact_stops_witness :
  let w := Demo.installed [Byte.x05] in
  ∃ msg,
    load_assets Demo.lib w
    = (Stop, mkWorld (files w) (trace w ++ [st_error msg])%list).
Proof.
  cbv zeta.
  apply (load_assets_corrupt_artifact_stops Demo.lib
           (Demo.installed [Byte.x05]) "selected_features.joblib" [Byte.x05]
           (OtherException "UnpicklingError" "invalid load key")).
  - reflexivity.
  - left. split; [|reflexivity].
    do 2 apply list_elem_of_further. apply list_elem_of_here.
Defined.

(** ** More on the upload handler (lines 82-124) *)

Lemma run_prediction_pipeline_files lib g signal sr w :
  files (run_prediction_pipeline lib g signal sr w).2 = files w.
Proof.
  destruct (pipeline_body_cases lib g signal sr w)
    as [(e & calls & Hab & Hbody)
       |(? & ? & ? & ? & ? & ? & ? & ? & ? & ? & ? & ? & _ & _ & _ & _ & _
         & _ & _ & _ & Hbody)].
  - by rewrite (run_prediction_pipeline_aborted _ _ _ _ _ _ w Hab).
  - unfold run_prediction_pipeline, try_except. by rewrite Hbody.
Qed.

Lemma run_prediction_pipeline_shape lib g signal sr w :
  ∃ res, (run_prediction_pipeline lib g signal sr w).1 = Return res ∧
    (res = (None, None) ∨
     ∃ kata pembicara, res = (Some kata, Some pembicara) ∧
       kata ∈ ["Buka"; "Tutup"] ∧ pembicara ∈ ["Fikri"; "Fauzan"]).
Proof.
  destruct (pipeline_body_cases lib g signal sr w)
    as [(e & calls & Hab & Hbody)
       |(? & ? & ? & ? & ? & ? & ? & ? & ? & pred_array & kata & pembicara
         & _ & _ & _ & _ & _ & _ & _ & Hi & Hbody)].
  - exists (None, None).
    rewrite (run_prediction_pipeline_aborted _ _ _ _ _ _ w Hab).
    by split; [|left].
  - exists (Some kata, Some pembicara).
    unfold run_prediction_pipeline, try_except. rewrite Hbody.
    split; [done|]. right. exists kata, pembicara. split; [done|].
    by apply interpret_inr in Hi.
Qed.

Lemma subprocess_run_check_eq lib command w :
  subprocess_run_check lib command w =
  match ffmpeg lib with
  | None =>
      (Raise (FileNotFoundError "[Errno 2] No such file or directory: 'ffmpeg'"),
       after w [call_subprocess command])
  | Some exe =>
      let '(returncode, stderr, fs') := exe command (files w) in
      if (returncode =? 0)%Z
      then (Return tt, mkWorld fs' (trace w ++ [call_subprocess command])%list)
      else (Raise (CalledProcessError
                     ("Command returned non-zero exit status "
                      +:+ pretty returncode +:+ ".") stderr),
            mkWorld fs' (trace w ++ [call_subprocess command])%list)
  end.
Proof.
  unfold subprocess_run_check. unfold_M.
  destruct (ffmpeg lib) as [exe|]; [|done]. cbn.
  destruct (exe command (files w)) as [[code stderr] fs'].
  by destruct (code =? 0)%Z.
Qed.

Lemma librosa_load_path_eq lib path sr mono w :
  librosa_load_path lib path sr mono w =
  match files w !! path with
  | Some content =>
      match librosa_load lib content sr mono with
      | inl e => (Raise e, w)
      | inr v => (Return v, w)
      end
  | None => (Raise (FileNotFoundError
                      ("[Errno 2] No such file or directory: '" +:+ path +:+ "'")), w)
  end.
Proof.
  unfold librosa_load_path. unfold mbind, M_bind. rewrite open_read_eq.
  destruct (files w !! path) as [content|]; [|done].
  unfold lift, raise, mret, M_ret.
  by destruct (librosa_load lib content sr mono).
Qed.

(** The body of the [try] at line 95, by what ffmpeg and the decoder do. *)
Lemma upload_try_body_eq lib g inp out w0 :
  upload_try_body lib g inp out w0 =
  match ffmpeg lib with
  | None =>
      (Raise (FileNotFoundError "[Errno 2] No such file or directory: 'ffmpeg'"),
       after w0 [call_subprocess (ffmpeg_command inp out)])
  | Some exe =>
      let '(returncode, stderr, fs1) := exe (ffmpeg_command inp out) (files w0) in
      let w1 := mkWorld fs1
                  (trace w0 ++ [call_subprocess (ffmpeg_command inp out)])%list in
      if (returncode =? 0)%Z then
        match fs1 !! out with
        | Some content =>
            match librosa_load lib content (Some TARGET_SR) true with
            | inl e => (Raise e, w1)
            | inr (signal, sr) => run_prediction_pipeline lib g signal sr w1
            end
        | None =>
            (Raise (FileNotFoundError
                      ("[Errno 2] No such file or directory: '" +:+ out +:+ "'")),
             w1)
        end
      else (Raise (CalledProcessError
                     ("Command returned non-zero exit status "
                      +:+ pretty returncode +:+ ".") stderr), w1)
  end.
Proof.
  unfold upload_try_body.
  unfold mbind at 1, M_bind at 1. rewrite subprocess_run_check_eq.
  destruct (ffmpeg lib) as [exe|]; [|done].
  destruct (exe (ffmpeg_command inp out) (files w0)) as [[code stderr] fs1].
  destruct (code =? 0)%Z; [|done].
  unfold mbind at 1, M_bind at 1. rewrite librosa_load_path_eq. cbn [files].
  destruct (fs1 !! out) as [content|]; [|done].
  by destruct (librosa_load lib content (Some TARGET_SR) true) as [e|[signal sr]].
Qed.

Lemma process_uploaded_file_eq lib g audio_file w :
  process_uploaded_file lib g audio_file w =
  let '(r1, w1) :=
    try_except
      (upload_try_body lib g (upload_input_path lib audio_file w)
                       (upload_output_path lib audio_file w))
      (upload_handlers lib)
      (mkWorld (upload_files lib audio_file w) (trace w)) in
  (r1, mkWorld (upload_cleaned lib audio_file w (files w1)) (trace w1)).
Proof.
  unfold process_uploaded_file.
  unfold mbind at 1, M_bind at 1.
  change (NamedTemporaryFile_write lib (splitext_ext lib (name audio_file))
            (getvalue audio_file) w)
    with (Return (upload_input_path lib audio_file w),
          mkWorld (upload_files lib audio_file w) (trace w)).
  unfold try_finally.
  change (upload_input_path lib audio_file w +:+ ".wav")
    with (upload_output_path lib audio_file w).
  destruct (try_except _ _ _) as [r1 w1].
  by rewrite cleanup_eq.
Qed.

(** What the three [except] clauses do: show one message and return
    (None, None), unless the exception is a CalledProcessError whose stderr
    does not decode, in which case the decoding error leaves the handler. *)
Lemma upload_handlers_cases lib e w :
  (∃ msg, upload_handlers lib e w
          = (Return (None, None), after w [st_error msg])) ∨
  (∃ m stderr e', e = CalledProcessError m stderr ∧
     bytes_decode lib stderr = inl e' ∧
     upload_handlers lib e w = (Raise e', w)).
Proof.
  destruct e as [m|m stderr|m|m|m|c m]; try (left; eexists; reflexivity).
  unfold upload_handlers.
  destruct (bytes_decode lib stderr) as [e'|text] eqn:Hd.
  - right. exists m, stderr, e'. by repeat split.
  - left. eexists. reflexivity.
Qed.

(** X11: When ffmpeg exits with a non-zero status, the request ends with
    (None, None) and one message: "Error saat konversi FFmpeg: " followed by
    what ffmpeg wrote to stderr.  The transcoded file is not opened, the
    pipeline is not run, and both temporary files are gone, including a
    partial output ffmpeg may have left. *)
Theorem upload_transcoder_error_shown lib g audio_file w exe code stderr fs1 text :
  ffmpeg lib = Some exe →
  exe (upload_command lib audio_file w) (upload_files lib audio_file w)
    = (code, stderr, fs1) →
  code ≠ 0 →
  bytes_decode lib stderr = inr text →
  process_uploaded_file lib g audio_file w =
    (Return (None, None),
     mkWorld (upload_cleaned lib audio_file w fs1)
       (trace w ++ [call_subprocess (upload_command lib audio_file w);
                    st_error ("Error saat konversi FFmpeg: " +:+ text)])%list).
Proof.
  intros Hff Hexe Hcode Hdec.
  rewrite process_uploaded_file_eq. unfold try_except.
  rewrite upload_try_body_eq, Hff. cbn [files trace].
  fold (upload_command lib audio_file w). rewrite Hexe.
  destruct (Z.eqb_spec code 0) as [->|_]; [done|].
  unfold upload_handlers. unfold_M. rewrite Hdec. cbn.
  by rewrite <- app_assoc.
Qed.

Lemma upload_transcoder_error_shown_witness :
  let lib := Demo.lib_with (Some Demo.ffmpeg_fail) in
  let w := mkWorld ∅ [] in
  process_uploaded_file lib Demo.loaded Demo.clip w =
    (Return (None, None),
     mkWorld (upload_cleaned lib Demo.clip w
                (<["/tmp/tmpa1b2.mp3.wav" := [Byte.x52]]>
                   (upload_files lib Demo.clip w)))
       (trace w ++ [call_subprocess (upload_command lib Demo.clip w);
                    st_error ("Error saat konversi FFmpeg: " +:+ "error text")])%list).
Proof.
  cbv zeta.
  eapply (upload_transcoder_error_shown (Demo.lib_with (Some Demo.ffmpeg_fail))
            Demo.loaded Demo.clip (mkWorld ∅ []) Demo.ffmpeg_fail 1
            [Byte.x45; Byte.x72; Byte.x72]);
    solve [reflexivity | lia].
Defined.

(** X12: When ffmpeg fails and what it wrote to stderr does not decode, the
    handler's own [e.stderr.decode()] raises: the decoding error leaves
    [process_uploaded_file] instead of a (None, None), and no message is
    shown.  The [finally] clause has still removed both temporary files. *)
Theorem upload_undecodable_stderr_raises lib g audio_file w exe code stderr fs1 e :
  ffmpeg lib = Some exe →
  exe (upload_command lib audio_file w) (upload_files lib audio_file w)
    = (code, stderr, fs1) →
  code ≠ 0 →
  bytes_decode lib stderr = inl e →
  process_uploaded_file lib g audio_file w =
    (Raise e,
     mkWorld (upload_cleaned lib audio_file w fs1)
       (trace w ++ [call_subprocess (upload_command lib audio_file w)])%list).
Proof.
  intros Hff Hexe Hcode Hdec.
  rewrite process_uploaded_file_eq. unfold try_except.
  rewrite upload_try_body_eq, Hff. cbn [files trace].
  fold (upload_command lib audio_file w). rewrite Hexe.
  destruct (Z.eqb_spec code 0) as [->|_]; [done|].
  unfold upload_handlers. unfold_M. by rewrite Hdec.
Qed.

Lemma upload_undecodable_stderr_raises_witness :
  let lib := Scenario.lib_undecodable in
  let w := mkWorld ∅ [] in
  process_uploaded_file lib Demo.loaded Demo.clip w =
    (Raise Scenario.undecodable,
     mkWorld (upload_cleaned lib Demo.clip w
                (<["/tmp/tmpa1b2.mp3.wav" := [Byte.x52]]>
                   (upload_files lib Demo.clip w)))
       (trace w ++ [call_subprocess (upload_command lib Demo.clip w)])%list).
Proof.
  cbv zeta.
  eapply (upload_undecodable_stderr_raises Scenario.lib_undecodable
            Demo.loaded Demo.clip (mkWorld ∅ []) Demo.ffmpeg_fail 1
            [Byte.x45; Byte.x72; Byte.x72]);
    solve [reflexivity | lia].
Defined.

(** X13: When ffmpeg is installed and exits with status 0 but has left no file at
    the output path, [librosa.load] raises FileNotFoundError and the clause
    at line 113 catches it: the user is told that FFmpeg was not found, the
    same message as when the executable is missing. *)
Theorem upload_missing_output_blamed_on_ffmpeg lib g audio_file w exe stderr fs1 :
  ffmpeg lib = Some exe →
  exe (upload_command lib audio_file w) (upload_files lib audio_file w)
    = (0, stderr, fs1) →
  fs1 !! upload_output_path lib audio_file w = None →
  process_uploaded_file lib g audio_file w =
    (Return (None, None),
     mkWorld (upload_cleaned lib audio_file w fs1)
       (trace w ++ [call_subprocess (upload_command lib audio_file w);
                    st_error "ERROR: FFmpeg tidak ditemukan. Pastikan FFmpeg sudah terinstal."])%list).
Proof.
  intros Hff Hexe Hout.
  rewrite process_uploaded_file_eq. unfold try_except.
  rewrite upload_try_body_eq, Hff. cbn [files trace].
  fold (upload_command lib audio_file w). rewrite Hexe. cbn [Z.eqb].
  rewrite Hout. unfold upload_handlers. unfold_M. cbn.
  by rewrite <- app_assoc.
Qed.

Lemma upload_missing_output_blamed_on_ffmpeg_witness :
  let lib := Scenario.lib_silent in
  let w := mkWorld ∅ [] in
  process_uploaded_file lib Demo.loaded Demo.clip w =
    (Return (None, None),
     mkWorld (upload_cleaned lib Demo.clip w (upload_files lib Demo.clip w))
       (trace w ++ [call_subprocess (upload_command lib Demo.clip w);
                    st_error "ERROR: FFmpeg tidak ditemukan. Pastikan FFmpeg sudah terinstal."])%list).
Proof.
  cbv zeta.
  eapply (upload_missing_output_blamed_on_ffmpeg Scenario.lib_silent
            Demo.loaded Demo.clip (mkWorld ∅ []) Scenario.ffmpeg_silent []);
    reflexivity.
Defined.

(** X14: When ffmpeg succeeds and its output decodes, the upload handler returns
    what the pipeline returns on the decoded audio mixed down to one channel
    and resampled from its native rate to 16000, and adds nothing of its own
    to the page.  The uploaded bytes are what ffmpeg finds at its input path,
    and both temporary files are removed afterwards. *)
Theorem upload_success_is_pipeline lib g audio_file w exe stderr fs1 content
    y0 sr0 :
  ffmpeg lib = Some exe →
  exe (upload_command lib audio_file w) (upload_files lib audio_file w)
    = (0, stderr, fs1) →
  fs1 !! upload_output_path lib audio_file w = Some content →
  audio_decode lib content = inr (y0, sr0) →
  let run :=
    run_prediction_pipeline lib g
      (resample lib (to_mono lib y0) sr0 TARGET_SR) TARGET_SR
      (mkWorld fs1
         (trace w ++ [call_subprocess (upload_command lib audio_file w)])%list) in
  upload_files lib audio_file w !! upload_input_path lib audio_file w
    = Some (getvalue audio_file) ∧
  process_uploaded_file lib g audio_file w =
    (run.1, mkWorld (upload_cleaned lib audio_file w fs1) (trace run.2)).
Proof.
  intros Hff Hexe Hout Hdec run. split; [apply lookup_insert_eq|].
  rewrite process_uploaded_file_eq. unfold try_except.
  rewrite upload_try_body_eq, Hff. cbn [files trace].
  fold (upload_command lib audio_file w). rewrite Hexe. cbn [Z.eqb].
  rewrite Hout. unfold librosa_load. unfold mbind at 1, result_bind at 1.
  rewrite Hdec. cbn [mret result_ret]. fold run.
  destruct (run_prediction_pipeline_returns lib g
              (resample lib (to_mono lib y0) sr0 TARGET_SR) TARGET_SR
              (mkWorld fs1
                 (trace w ++ [call_subprocess (upload_command lib audio_file w)])%list))
    as [res Hres].
  fold run in Hres.
  pose proof (run_prediction_pipeline_files lib g
              (resample lib (to_mono lib y0) sr0 TARGET_SR) TARGET_SR
              (mkWorld fs1
                 (trace w ++ [call_subprocess (upload_command lib audio_file w)])%list))
    as Hfiles.
  fold run in Hfiles. cbn [files] in Hfiles.
  destruct run as [r2 w2]. cbn [fst snd] in *. subst r2.
  by rewrite Hfiles.
Qed.

Lemma upload_success_is_pipeline_witness :
  let lib := Demo.lib in
  let w := mkWorld ∅ [] in
  let fs1 := <["/tmp/tmpa1b2.mp3.wav" := [Byte.x52; Byte.x49; Byte.x46; Byte.x46]]>
               (upload_files lib Demo.clip w) in
  let run :=
    run_prediction_pipeline lib Demo.loaded
      (resample lib (to_mono lib Demo.stereo) 44100 TARGET_SR) TARGET_SR
      (mkWorld fs1
         (trace w ++ [call_subprocess (upload_command lib Demo.clip w)])%list) in
  upload_files lib Demo.clip w !! upload_input_path lib Demo.clip w
    = Some (getvalue Demo.clip) ∧
  process_uploaded_file lib Demo.loaded Demo.clip w =
    (run.1, mkWorld (upload_cleaned lib Demo.clip w fs1) (trace run.2)).
Proof.
  cbv zeta.
  eapply (upload_success_is_pipeline Demo.lib Demo.loaded Demo.clip
            (mkWorld ∅ []) Demo.ffmpeg_ok []
            _ [Byte.x52; Byte.x49; Byte.x46; Byte.x46] Demo.stereo 44100);
    reflexivity.
Defined.

(** X15: When the transcoded file is there but the decoder rejects it with an
    exception that is neither a FileNotFoundError nor a CalledProcessError,
    the request ends with (None, None) and the message "Terjadi error saat
    memproses file upload: " followed by the decoder's text; the pipeline is
    not run. *)
Theorem upload_decoder_error_shown lib g audio_file w exe stderr fs1 content e :
  ffmpeg lib = Some exe →
  exe (upload_command lib audio_file w) (upload_files lib audio_file w)
    = (0, stderr, fs1) →
  fs1 !! upload_output_path lib audio_file w = Some content →
  audio_decode lib content = inl e →
  (∀ m, e ≠ FileNotFoundError m) → (∀ m s, e ≠ CalledProcessError m s) →
  process_uploaded_file lib g audio_file w =
    (Return (None, None),
     mkWorld (upload_cleaned lib audio_file w fs1)
       (trace w ++ [call_subprocess (upload_command lib audio_file w);
                    st_error ("Terjadi error saat memproses file upload: "
                              +:+ str_exception e)])%list).
Proof.
  intros Hff Hexe Hout Hdec Hnf Hnc.
  rewrite process_uploaded_file_eq. unfold try_except.
  rewrite upload_try_body_eq, Hff. cbn [files trace].
  fold (upload_command lib audio_file w). rewrite Hexe. cbn [Z.eqb].
  rewrite Hout. unfold librosa_load. unfold mbind at 1, result_bind at 1.
  rewrite Hdec.
  destruct e as [m|m s|m|m|m|c m];
    try (by destruct (Hnf m)); try (by destruct (Hnc m s));
    unfold upload_handlers; unfold_M; cbn; by rewrite <- app_assoc.
Qed.

Lemma upload_decoder_error_shown_witness :
  let lib := Demo.lib_with (Some Demo.ffmpeg_empty) in
  let w := mkWorld ∅ [] in
  process_uploaded_file lib Demo.loaded Demo.clip w =
    (Return (None, None),
     mkWorld (upload_cleaned lib Demo.clip w
                (<["/tmp/tmpa1b2.mp3.wav" := []]> (upload_files lib Demo.clip w)))
       (trace w ++ [call_subprocess (upload_command lib Demo.clip w);
                    st_error ("Terjadi error saat memproses file upload: "
                              +:+ str_exception
                                    (OtherException "NoBackendError" "no backend"))])%list).
Proof.
  cbv zeta.
  eapply (upload_decoder_error_shown (Demo.lib_with (Some Demo.ffmpeg_empty))
            Demo.loaded Demo.clip (mkWorld ∅ []) Demo.ffmpeg_empty [] _ []);
    try reflexivity; intros; discriminate.
Defined.

Lemma upload_try_statement_cases lib g inp out w0 :
  (∃ res w1,
     try_except (upload_try_body lib g inp out) (upload_handlers lib) w0
       = (Return res, w1) ∧
     (res = (None, None) ∨
      ∃ kata pembicara, res = (Some kata, Some pembicara) ∧
        kata ∈ ["Buka"; "Tutup"] ∧ pembicara ∈ ["Fikri"; "Fauzan"])) ∨
  (∃ e w1 m stderr,
     try_except (upload_try_body lib g inp out) (upload_handlers lib) w0
       = (Raise e, w1) ∧
     upload_try_body lib g inp out w0 = (Raise (CalledProcessError m stderr), w1) ∧
     bytes_decode lib stderr = inl e).
Proof.
  unfold try_except.
  destruct (upload_try_body lib g inp out w0) as [r0 w1] eqn:Hbody.
  destruct r0 as [res|e|].
  - left. exists res, w1. split; [done|].
    rewrite upload_try_body_eq in Hbody.
    destruct (ffmpeg lib) as [exe|]; [|discriminate].
    destruct (exe _ _) as [[code stderr] fs1].
    destruct (code =? 0)%Z; [|discriminate].
    destruct (fs1 !! out) as [content|]; [|discriminate].
    destruct (librosa_load lib content (Some TARGET_SR) true)
      as [e|[signal sr]]; [discriminate|].
    cbv zeta in Hbody.
    match type of Hbody with
    | run_prediction_pipeline lib g signal sr ?w2 = _ =>
        destruct (run_prediction_pipeline_shape lib g signal sr w2)
          as (res' & Hres & Hshape)
    end.
    rewrite Hbody in Hres. cbn [fst] in Hres. by injection Hres as <-.
  - destruct (upload_handlers_cases lib e w1)
      as [[msg ->]|(m & stderr & e' & -> & Hd & ->)].
    + left. eexists _, _. split; [reflexivity|]. by left.
    + right. by exists e', w1, m, stderr.
  - exfalso. rewrite upload_try_body_eq in Hbody.
    destruct (ffmpeg lib) as [exe|]; [|discriminate].
    destruct (exe _ _) as [[code stderr] fs1].
    destruct (code =? 0)%Z; [|discriminate].
    destruct (fs1 !! out) as [content|]; [|discriminate].
    destruct (librosa_load lib content (Some TARGET_SR) true)
      as [e|[signal sr]]; [discriminate|].
    cbv zeta in Hbody.
    match type of Hbody with
    | run_prediction_pipeline lib g signal sr ?w2 = _ =>
        destruct (run_prediction_pipeline_returns lib g signal sr w2)
          as (res' & Hres)
    end.
    rewrite Hbody in Hres. discriminate.
Qed.

(** X16: The [try] statement of lines 95-118 (the ffmpeg call, the load of its
    output, the pipeline, and the three [except] clauses) never stops the
    script, and what it yields is (None, None) or a word in {Buka, Tutup}
    with a speaker in {Fikri, Fauzan}.  The only exception that leaves it
    is the one [e.stderr.decode()] raises at line 111 while a
    CalledProcessError is being handled.  What lines 89-91, before the
    [try], and the [finally] clause may raise is outside this statement. *)
Theorem upload_try_statement_outcome lib g input_temp_path output_temp_path
    w0 r w1 :
  try_except (upload_try_body lib g input_temp_path output_temp_path)
             (upload_handlers lib) w0 = (r, w1) →
  (∃ res, r = Return res ∧
     (res = (None, None) ∨
      ∃ kata pembicara, res = (Some kata, Some pembicara) ∧
        kata ∈ ["Buka"; "Tutup"] ∧ pembicara ∈ ["Fikri"; "Fauzan"])) ∨
  (∃ e m stderr, r = Raise e ∧
     upload_try_body lib g input_temp_path output_temp_path w0
       = (Raise (CalledProcessError m stderr), w1) ∧
     bytes_decode lib stderr = inl e).
Proof.
  intros Hrun.
  destruct (upload_try_statement_cases lib g input_temp_path output_temp_path w0)
    as [(res & w2 & Heq & Hshape)|(e & w2 & m & stderr & Heq & Hbody & Hd)];
    rewrite Heq in Hrun; injection Hrun as <- <-.
  - left. by exists res.
  - right. by exists e, m, stderr.
Qed.

Lemma upload_try_statement_outcome_witness :
  let lib := Scenario.lib_undecodable in
  let run := try_except
               (upload_try_body lib Demo.loaded "/tmp/tmpa1b2.mp3"
                  "/tmp/tmpa1b2.mp3.wav")
               (upload_handlers lib) (mkWorld ∅ []) in
  (∃ res, run.1 = Return res ∧
     (res = (None, None) ∨
      ∃ kata pembicara, res = (Some kata, Some pembicara) ∧
        kata ∈ ["Buka"; "Tutup"] ∧ pembicara ∈ ["Fikri"; "Fauzan"])) ∨
  (∃ e m stderr, run.1 = Raise e ∧
     upload_try_body lib Demo.loaded "/tmp/tmpa1b2.mp3" "/tmp/tmpa1b2.mp3.wav"
       (mkWorld ∅ []) = (Raise (CalledProcessError m stderr), run.2) ∧
     bytes_decode lib stderr = inl e).
Proof.
  cbv zeta.
  apply (upload_try_statement_outcome Scenario.lib_undecodable Demo.loaded
           "/tmp/tmpa1b2.mp3" "/tmp/tmpa1b2.mp3.wav" (mkWorld ∅ [])).
  reflexivity.
Defined.


(** ** The recorder handler and the page (lines 135-191) *)

Lemma show_result_eq r w :
  show_result r w =
  (Return tt,
   after w (match r with
            | (Some kata, Some pembicara) =>
                if truthy (Some kata) && truthy (Some pembicara)
                then shown r else []
            | _ => []
            end)).
Proof.
  destruct r as [[kata|] [pembicara|]]; unfold show_result;
    try (by rewrite after_nil).
  destruct (truthy (Some kata) && truthy (Some pembicara));
    [|by rewrite after_nil].
  unfold_M. cbn. by rewrite <- !app_assoc.
Qed.

Lemma shown_labels res :
  (res = (None, None) ∨
   ∃ kata pembicara, res = (Some kata, Some pembicara) ∧
     kata ∈ ["Buka"; "Tutup"] ∧ pembicara ∈ ["Fikri"; "Fauzan"]) →
  (match res with
   | (Some kata, Some pembicara) =>
       if truthy (Some kata) && truthy (Some pembicara)
       then shown res else []
   | _ => []
   end = shown res) ∧
  ((res = (None, None) ∧ shown res = []) ∨
   ∃ K P, K ∈ ["BUKA"; "TUTUP"] ∧ P ∈ ["FIKRI"; "FAUZAN"] ∧
     shown res = [st_success "Prediksi Berhasil!";
                  st_metric "Kata yang Diucapkan" K;
                  st_metric "Pembicara" P]).
Proof.
  intros [->|(kata & pembicara & -> & Hk & Hp)].
  - split; [done|]. by left.
  - apply elem_of_cons in Hk as [->|Hk];
      [|apply elem_of_cons in Hk as [->|Hk]; [|by apply elem_of_nil in Hk]];
      (apply elem_of_cons in Hp as [->|Hp];
       [|apply elem_of_cons in Hp as [->|Hp]; [|by apply elem_of_nil in Hp]]);
      (split; [reflexivity|]); right; eexists _, _;
      (split; [|split; [|reflexivity]]);
      first [ apply list_elem_of_here
            | apply list_elem_of_further, list_elem_of_here ].
Qed.

(** X17: The handler of the record button catches everything: whatever the
    recording, the decoder, the estimators and the globals, it returns
    normally, and it writes no file. *)
Theorem predict_recording_always_returns lib g wav_audio_bytes w :
  ∃ w', predict_recording lib g wav_audio_bytes w = (Return tt, w') ∧
        files w' = files w.
Proof.
  unfold predict_recording, try_except.
  unfold mbind at 1, M_bind at 1.
  destruct (librosa_load lib wav_audio_bytes (Some TARGET_SR) true)
    as [e|[signal sr]]; cbn [lift].
  - eexists. split; [reflexivity|done].
  - unfold mret at 1, M_ret at 1. unfold mbind at 1, M_bind at 1.
    destruct (run_prediction_pipeline_returns lib g signal sr w) as [res Hres].
    pose proof (run_prediction_pipeline_files lib g signal sr w) as Hfiles.
    destruct (run_prediction_pipeline lib g signal sr w) as [r2 w2].
    cbn [fst snd] in *. subst r2. rewrite show_result_eq.
    eexists. split; [reflexivity|done].
Qed.

(** X18: A recording the decoder rejects gives one message, "Error saat
    memproses rekaman: " followed by the decoder's text, and the pipeline is
    not run. *)
Theorem predict_recording_decode_failure lib g wav_audio_bytes w e :
  audio_decode lib wav_audio_bytes = inl e →
  predict_recording lib g wav_audio_bytes w =
    (Return tt,
     mkWorld (files w)
       (trace w ++ [st_error ("Error saat memproses rekaman: "
                              +:+ str_exception e)])%list).
Proof.
  intros Hdec. unfold predict_recording, try_except.
  unfold mbind at 1, M_bind at 1.
  unfold librosa_load. unfold mbind at 1, result_bind at 1. by rewrite Hdec.
Qed.

Lemma predict_recording_decode_failure_witness :
  predict_recording Demo.lib Demo.loaded [] (mkWorld ∅ []) =
    (Return tt,
     mkWorld ∅
       ([] ++ [st_error ("Error saat memproses rekaman: "
                         +:+ str_exception
                               (OtherException "NoBackendError" "no backend"))])%list).
Proof.
  apply (predict_recording_decode_failure Demo.lib Demo.loaded []
           (mkWorld ∅ [])).
  reflexivity.
Defined.

(** X19: A recording that decodes is mixed down, resampled to 16000 and given to
    the pipeline; the page then shows nothing more when the pipeline
    returned (None, None), and otherwise the success box and two metrics
    whose values are the labels in capitals: BUKA or TUTUP, and FIKRI or
    FAUZAN. *)
Theorem predict_recording_shows_result lib g wav_audio_bytes w y0 sr0 :
  audio_decode lib wav_audio_bytes = inr (y0, sr0) →
  let run := run_prediction_pipeline lib g
               (resample lib (to_mono lib y0) sr0 TARGET_SR) TARGET_SR w in
  ∃ res, run.1 = Return res ∧
    predict_recording lib g wav_audio_bytes w =
      (Return tt, mkWorld (files w) (trace run.2 ++ shown res)%list) ∧
    ((res = (None, None) ∧ shown res = []) ∨
     ∃ K P, K ∈ ["BUKA"; "TUTUP"] ∧ P ∈ ["FIKRI"; "FAUZAN"] ∧
       shown res = [st_success "Prediksi Berhasil!";
                    st_metric "Kata yang Diucapkan" K;
                    st_metric "Pembicara" P]).
Proof.
  intros Hdec run.
  destruct (run_prediction_pipeline_shape lib g
              (resample lib (to_mono lib y0) sr0 TARGET_SR) TARGET_SR w)
    as (res & Hres & Hshape).
  pose proof (run_prediction_pipeline_files lib g
              (resample lib (to_mono lib y0) sr0 TARGET_SR) TARGET_SR w)
    as Hfiles.
  fold run in Hres, Hfiles.
  destruct (shown_labels res Hshape) as [Hshown Hlabels].
  exists res. split; [done|]. split; [|done].
  unfold predict_recording, try_except.
  unfold mbind at 1, M_bind at 1.
  unfold librosa_load. unfold mbind at 1, result_bind at 1. rewrite Hdec.
  cbn [mret result_ret lift]. unfold mret at 1, M_ret at 1.
  unfold mbind at 1, M_bind at 1. fold run.
  destruct run as [r2 w2]. cbn [fst snd] in *. subst r2.
  rewrite show_result_eq, Hshown. unfold after. by rewrite Hfiles.
Qed.

Lemma predict_recording_shows_result_witness :
  let w := mkWorld ∅ [] in
  let run := run_prediction_pipeline Demo.lib Demo.loaded
               (resample Demo.lib (to_mono Demo.lib Demo.stereo) 44100 TARGET_SR)
               TARGET_SR w in
  ∃ res, run.1 = Return res ∧
    predict_recording Demo.lib Demo.loaded [Byte.x52] w =
      (Return tt, mkWorld (files w) (trace run.2 ++ shown res)%list) ∧
    ((res = (None, None) ∧ shown res = []) ∨
     ∃ K P, K ∈ ["BUKA"; "TUTUP"] ∧ P ∈ ["FIKRI"; "FAUZAN"] ∧
       shown res = [st_success "Prediksi Berhasil!";
                    st_metric "Kata yang Diucapkan" K;
                    st_metric "Pembicara" P]).
Proof.
  cbv zeta.
  apply (predict_recording_shows_result Demo.lib Demo.loaded [Byte.x52]
           (mkWorld ∅ []) Demo.stereo 44100).
  reflexivity.
Defined.










